(** * scikit-criteria: the decision matrix, objectives and the simple
      compensatory rankers (weighted sum, weighted product)

    A shallow embedding of [skcriteria/data.py] and [skcriteria/madm/simple.py].

    - Python exceptions are values of [exn]; a computation that may raise is a
      [result] (in the error monad below).
    - numpy's float64 is the carrier of a [Numeric] instance.  The model is
      generic in the instance: [float_numeric] is IEEE binary64 itself (Rocq's
      primitive floats), [Z_numeric] is exact integer arithmetic.  No law of
      arithmetic is built in: a statement that needs [<] to be a strict weak
      order asks it of the scores at hand ([strict_weak_order_on], which
      floats meet when none of them is NaN).
    - A numpy array is its shape and its row-major data ([ndarray]); a pandas
      DataFrame is its index, its columns and its row-major cells.  The
      cells of a decision matrix are float64; the dtype of a column is not
      modelled.
    - numpy fixes neither the order in which a sum of floats is accumulated
      nor the rounding of the partial sums: the inner product of a row
      ([np_dot]) and the sum of a run ([np_add_reduce]) are parameters of
      the model, like [np.log10], and nothing is assumed of them.  A
      statement of the sum [w_1*x_1 + ... + w_C*x_C] itself says that it
      takes the reduction to be that sum.
    - An array keeps its shape through [np.inner], [np.squeeze] and
      [np.sum]: the scores of a single alternative are a zero-dimensional
      array in the weighted sum model. *)

From Stdlib Require Import String Ascii.
From Stdlib Require Import List ZArith Bool Arith Lia.
From Stdlib Require Import Permutation Sorted DecimalString.
From Stdlib Require DecimalNat.
From Stdlib Require Import Floats.PrimFloat Numbers.Cyclic.Int63.Uint63.
From Stdlib Require Floats.SpecFloat Floats.FloatOps Floats.FloatAxioms.
Import ListNotations.

Set Implicit Arguments.
Set Warnings "-register-all".
Open Scope string_scope.
Open Scope list_scope.
Open Scope nat_scope.

(* ===================================================================== *)
(** ** Numbers *)

(** What the code asks of float64: conversion from a Python int, [+], [*],
    [==], [<] and [<=]. *)
Class Numeric (num : Type) : Type := {
  of_int : Z -> num;
  add : num -> num -> num;
  mul : num -> num -> num;
  eqb : num -> num -> bool;
  ltb : num -> num -> bool;
  leb : num -> num -> bool
}.

Definition zero {num} `{Numeric num} : num := of_int 0%Z.
Definition one {num} `{Numeric num} : num := of_int 1%Z.

(** [x != x], which holds of NaN only. *)
Definition isnan {num} `{Numeric num} (x : num) : bool := negb (eqb x x).

#[export] Instance Z_numeric : Numeric Z := {
  of_int := fun z => z;
  add := Z.add;
  mul := Z.mul;
  eqb := Z.eqb;
  ltb := Z.ltb;
  leb := Z.leb
}.

(** Python's [float(n)] for the ints whose magnitude fits 63 bits. *)
Definition float_of_int (z : Z) : float :=
  match z with
  | Z0 => PrimFloat.zero
  | Zpos _ => PrimFloat.of_uint63 (Uint63.of_Z z)
  | Zneg p => PrimFloat.opp (PrimFloat.of_uint63 (Uint63.of_Z (Zpos p)))
  end.

#[export] Instance float_numeric : Numeric float := {
  of_int := float_of_int;
  add := PrimFloat.add;
  mul := PrimFloat.mul;
  eqb := PrimFloat.eqb;
  ltb := PrimFloat.ltb;
  leb := PrimFloat.leb
}.

(** The place of a float64 that is not NaN in the order: the infinities at
    the ends, the two zeros together, and between them the sign, then the
    exponent, then the mantissa. *)
Definition float_key (f : SpecFloat.spec_float) : Z * Z * Z :=
  match f with
  | SpecFloat.S754_infinity true => (-2, 0, 0)
  | SpecFloat.S754_finite true m e => (-1, - e, - Zpos m)
  | SpecFloat.S754_zero _ => (0, 0, 0)
  | SpecFloat.S754_finite false m e => (1, e, Zpos m)
  | SpecFloat.S754_infinity false => (2, 0, 0)
  | SpecFloat.S754_nan => (3, 0, 0)
  end%Z.

Definition key_lt (a b : Z * Z * Z) : Prop :=
  let '(a1, a2, a3) := a in
  let '(b1, b2, b3) := b in
  (a1 < b1 \/ (a1 = b1 /\ (a2 < b2 \/ (a2 = b2 /\ a3 < b3))))%Z.

(* ===================================================================== *)
(** ** Python values and exceptions *)

(** [enum.Enum] makes a member of every plain name bound in the class body:
    besides [MIN] and [MAX], the two glyphs and the two alias sets are
    members of [Objective] (the code reads them through [.value]). *)
Inductive Objective : Set :=
| MIN | MAX | _MIN_STR | _MAX_STR | _MAX_ALIASES | _MIN_ALIASES.

(** The callables that may name an objective, and any other one. *)
Inductive pyfunc : Set :=
| builtin_max | np_max | np_nanmax | np_amax
| builtin_min | np_min | np_nanmin | np_amin
| other_callable (qualname : string).

(** The (hashable) Python values that this code is handed as an alias, or
    keeps in an object array. *)
Inductive pyobj (num : Type) : Type :=
| PyInt (z : Z)
| PyFloat (x : num)
| PyStr (s : string)
| PyFunc (f : pyfunc)
| PyFrozenset (elems : list (pyobj num))
| PyObjective (o : Objective).

Arguments PyInt {num} z.
Arguments PyFloat {num} x.
Arguments PyStr {num} s.
Arguments PyFunc {num} f.
Arguments PyFrozenset {num} elems.
Arguments PyObjective {num} o.

(** The text of each [raise], with the values it interpolates. *)
Inductive message (num : Type) : Type :=
| Invalid_criteria_objective (alias : pyobj num)
| Mtx_must_have_2_dimensions (mtx_ndim : nat)
| Anames_must_have_elements (a_number : nat)
| Cnames_must_have_elements (c_number : nat)
| Objectives_and_weights_must_have_the_same_number_of_columns
    (c_number n_objectives n_weights : nat)
| WeightedSumModel_cant_operate_with_minimize_objective
| WeightedProductModel_cant_operate_with_minimize_objective
| WeightedProductModel_cant_operate_with_values_le_0
| Invalid_literal_for_int (s : string)
| Int_argument_must_be_a_number
| Shapes_not_aligned
| All_the_input_array_dimensions_must_match
| Operands_could_not_be_broadcast_together
| Axis_1_is_out_of_bounds (ndim : nat).

Arguments Invalid_criteria_objective {num} alias.
Arguments Mtx_must_have_2_dimensions {num} mtx_ndim.
Arguments Anames_must_have_elements {num} a_number.
Arguments Cnames_must_have_elements {num} c_number.
Arguments Objectives_and_weights_must_have_the_same_number_of_columns
  {num} c_number n_objectives n_weights.
Arguments WeightedSumModel_cant_operate_with_minimize_objective {num}.
Arguments WeightedProductModel_cant_operate_with_minimize_objective {num}.
Arguments WeightedProductModel_cant_operate_with_values_le_0 {num}.
Arguments Invalid_literal_for_int {num} s.
Arguments Int_argument_must_be_a_number {num}.
Arguments Shapes_not_aligned {num}.
Arguments All_the_input_array_dimensions_must_match {num}.
Arguments Operands_could_not_be_broadcast_together {num}.
Arguments Axis_1_is_out_of_bounds {num} ndim.

Inductive exn (num : Type) : Type :=
| ValueError (msg : message num)
| TypeError (msg : message num).

Arguments ValueError {num} msg.
Arguments TypeError {num} msg.

(** A computation that returns [A] or raises. *)
Definition result (num A : Type) : Type := (exn num + A)%type.

Definition ret {num A} (a : A) : result num A := inr a.
Definition raise {num A} (e : exn num) : result num A := inl e.
Definition bind {num A B} (m : result num A) (k : A -> result num B)
  : result num B :=
  match m with inl e => inl e | inr a => k a end.

Notation "x <- m ;; k" := (bind m (fun x => k))
  (at level 61, m at next level, right associativity).
Notation "' pat <- m ;; k" := (bind m (fun x => match x with pat => k end))
  (at level 61, pat pattern, m at next level, right associativity).

(** [[f(a) for a in arr]]: the first element that raises decides. *)
Fixpoint mapM {num A B} (f : A -> result num B) (l : list A)
  : result num (list B) :=
  match l with
  | [] => ret []
  | a :: l' => b <- f a ;; bs <- mapM f l' ;; ret (b :: bs)
  end.

(* ===================================================================== *)
(** ** [class Objective(enum.Enum)] *)

Section Model.

Context {num : Type} {N : Numeric num}.

(** [np.log10], a function of numpy that this development takes as given. *)
Variable log10 : num -> num.

(** The two reductions of numpy that [simple.py] reaches.  [np.inner] hands
    the rows to the BLAS numpy is linked with, and [np.sum] adds a run
    pairwise or in sequence: the order of accumulation, the rounding of the
    partial sums and whether a product is rounded before it is added are
    theirs to choose, and a BLAS may treat the rows of a block and the rows
    left over differently.  The model takes both as given, as functions of
    what they are handed:
    - [np_dot i r b], the inner product of [r], the row at position [i],
      with [b], as long as [r];
    - [np_add_reduce l], the sum of the run [l]. *)
Variable np_dot : nat -> list num -> list num -> num.
Variable np_add_reduce : list num -> num.

Definition Objective_eqb (a b : Objective) : bool :=
  match a, b with
  | MIN, MIN | MAX, MAX | _MIN_STR, _MIN_STR | _MAX_STR, _MAX_STR
  | _MAX_ALIASES, _MAX_ALIASES | _MIN_ALIASES, _MIN_ALIASES => true
  | _, _ => false
  end.

(** Functions are compared by identity. *)
Definition pyfunc_eqb (f g : pyfunc) : bool :=
  match f, g with
  | builtin_max, builtin_max | np_max, np_max | np_nanmax, np_nanmax
  | np_amax, np_amax | builtin_min, builtin_min | np_min, np_min
  | np_nanmin, np_nanmin | np_amin, np_amin => true
  | other_callable a, other_callable b => String.eqb a b
  | _, _ => false
  end.

(** Python's [==] on these values: an int equals the float of the same
    value, two frozensets are equal when each contains the other, values of
    different kinds are unequal. *)
Fixpoint py_eq (a b : pyobj num) {struct a} : bool :=
  match a, b with
  | PyInt x, PyInt y => Z.eqb x y
  | PyInt x, PyFloat y => eqb (of_int x) y
  | PyFloat x, PyInt y => eqb x (of_int y)
  | PyFloat x, PyFloat y => eqb x y
  | PyStr s, PyStr t => String.eqb s t
  | PyFunc f, PyFunc g => pyfunc_eqb f g
  | PyObjective o, PyObjective p => Objective_eqb o p
  | PyFrozenset xs, PyFrozenset ys =>
      forallb
        (fun y =>
           (fix mem (l : list (pyobj num)) : bool :=
              match l with
              | [] => false
              | x :: l' => py_eq x y || mem l'
              end) xs) ys
      && (fix sub (l : list (pyobj num)) : bool :=
            match l with
            | [] => true
            | x :: l' => existsb (py_eq x) ys && sub l'
            end) xs
  | _, _ => false
  end.

(** [x in s] for a frozenset [s] given by its elements. *)
Definition py_in (x : pyobj num) (s : list (pyobj num)) : bool :=
  existsb (fun e => py_eq e x) s.

Definition _MIN_STR_value : string := "▼".
Definition _MAX_STR_value : string := "▲".

(** Inside the class body [MAX] and [MIN] are still the ints 1 and -1. *)
Definition _MAX_ALIASES_value : list (pyobj num) :=
  [ PyInt 1%Z; PyStr _MAX_STR_value;
    PyFunc builtin_max; PyFunc np_max; PyFunc np_nanmax; PyFunc np_amax;
    PyStr "max"; PyStr "maximize"; PyStr "+"; PyStr ">" ].

Definition _MIN_ALIASES_value : list (pyobj num) :=
  [ PyInt (-1)%Z; PyStr _MIN_STR_value;
    PyFunc builtin_min; PyFunc np_min; PyFunc np_nanmin; PyFunc np_amin;
    PyStr "min"; PyStr "minimize"; PyStr "<"; PyStr "-" ].

(** [member.value] *)
Definition value (o : Objective) : pyobj num :=
  match o with
  | MIN => PyInt (-1)%Z
  | MAX => PyInt 1%Z
  | _MIN_STR => PyStr _MIN_STR_value
  | _MAX_STR => PyStr _MAX_STR_value
  | _MAX_ALIASES => PyFrozenset _MAX_ALIASES_value
  | _MIN_ALIASES => PyFrozenset _MIN_ALIASES_value
  end.

(** [member.name] *)
Definition name (o : Objective) : string :=
  match o with
  | MIN => "MIN"
  | MAX => "MAX"
  | _MIN_STR => "_MIN_STR"
  | _MAX_STR => "_MAX_STR"
  | _MAX_ALIASES => "_MAX_ALIASES"
  | _MIN_ALIASES => "_MIN_ALIASES"
  end.

(** [str.lower] on the bytes of the UTF-8 text: the ASCII capitals move, the
    bytes of other characters stay.  This is [str.lower] on ASCII texts
    ([isascii]).  Python also lowers the cased characters outside ASCII,
    which this does not: the lowered text of such an alias is another one
    in Python.  No character outside ASCII lowers to a letter of an alias,
    so membership in the alias sets is as in Python for every text; what
    is stated of the lowered text itself is stated of ASCII texts. *)
Definition lower_ascii (c : ascii) : ascii :=
  let n := nat_of_ascii c in
  if (65 <=? n) && (n <=? 90) then ascii_of_nat (n + 32) else c.

Fixpoint lower (s : string) : string :=
  match s with
  | EmptyString => EmptyString
  | String c s' => String (lower_ascii c) (lower s')
  end.

(** [if isinstance(alias, str): alias = alias.lower()] *)
Definition lower_if_str (alias : pyobj num) : pyobj num :=
  match alias with PyStr s => PyStr (lower s) | _ => alias end.

(** [str.isascii]: every character of the text is below 128. *)
Fixpoint isascii (s : string) : bool :=
  match s with
  | EmptyString => true
  | String c s' => (nat_of_ascii c <? 128) && isascii s'
  end.

(** The alias is no text with a character outside ASCII. *)
Definition ascii_alias (alias : pyobj num) : Prop :=
  forall s, alias = PyStr s -> isascii s = true.

(** [Objective.construct_from_alias] *)
Definition construct_from_alias (alias : pyobj num) : result num Objective :=
  match alias with
  | PyObjective o => ret o
  | _ =>
      let alias := lower_if_str alias in
      if py_in alias _MAX_ALIASES_value then ret MAX
      else if py_in alias _MIN_ALIASES_value then ret MIN
      else raise (ValueError (Invalid_criteria_objective alias))
  end.

(** [Objective.__str__] *)
Definition __str__ (self : Objective) : string := name self.

(** [Objective.to_string]; [None] when neither branch returns. *)
Definition to_string (self : Objective) : option string :=
  if py_in (value self) _MIN_ALIASES_value then Some _MIN_STR_value
  else if py_in (value self) _MAX_ALIASES_value then Some _MAX_STR_value
  else None.

(* ===================================================================== *)
(** ** Arrays and tables *)

(** A numpy array: its shape and its data in row-major order. *)
Record ndarray (T : Type) : Type := {
  shape : list nat;
  data : list T
}.

(** A pandas DataFrame: row labels, column labels, and the cells row by row.
    Its shape is [(length index, length columns)]. *)
Record DataFrame (T : Type) : Type := {
  index : list string;
  columns : list string;
  cells : list T
}.

(** [DataFrame.to_numpy()] *)
Definition to_numpy {T} (df : DataFrame T) : ndarray T :=
  {| shape := [length (index df); length (columns df)]; data := cells df |}.

Fixpoint forall2b {T} (p : T -> T -> bool) (a b : list T) : bool :=
  match a, b with
  | [], [] => true
  | x :: a', y :: b' => p x y && forall2b p a' b'
  | _, _ => false
  end.

(** [np.array_equal(a1, a2)] on one-dimensional arrays: the same length and
    [==] true at every position. *)
Definition np_array_equal {T} (eq : T -> T -> bool) (a1 a2 : list T) : bool :=
  forall2b eq a1 a2.

(** How pandas compares two float cells in [equals]: equal, or both NaN. *)
Definition cell_equiv (x y : num) : bool :=
  eqb x y || (isnan x && isnan y).

(** [DataFrame.equals]: the same labels and shape, and equivalent cells. *)
Definition DataFrame_equals (a b : DataFrame num) : bool :=
  forall2b String.eqb (index a) (index b)
  && forall2b String.eqb (columns a) (columns b)
  && forall2b cell_equiv (cells a) (cells b).

(* ===================================================================== *)
(** ** [class DecisionMatrix] *)

Record DecisionMatrix : Type := {
  _data_df : DataFrame num;
  _objectives : list Objective;
  _weights : list num
}.

(** The converters of the three attributes.  The table and the weights are
    copied; each objective goes through [construct_from_alias]. *)
Definition _as_df (df : DataFrame num) : DataFrame num := df.

Definition _as_objective_array (arr : list (pyobj num))
  : result num (list Objective) :=
  mapM construct_from_alias arr.

Definition _as_float_array (arr : list num) : list num := arr.

(** [DecisionMatrix.__attrs_post_init__] *)
Definition __attrs_post_init__ (self : DecisionMatrix) : result num unit :=
  let c_number := length (columns (_data_df self)) in
  let lens :=
    [c_number; length (_objectives self); length (_weights self)] in
  if 1 <? length (nodup Nat.eq_dec lens) then
    raise (ValueError
             (Objectives_and_weights_must_have_the_same_number_of_columns
                c_number (length (_objectives self))
                (length (_weights self))))
  else ret tt.

(** The constructor that [attr.s] writes: the converters in the order of the
    attributes, then [__attrs_post_init__]. *)
Definition DecisionMatrix_init (data_df : DataFrame num)
    (objectives : list (pyobj num)) (weights : list num)
  : result num DecisionMatrix :=
  let data_df := _as_df data_df in
  objectives <- _as_objective_array objectives ;;
  let weights := _as_float_array weights in
  let self := {| _data_df := data_df;
                 _objectives := objectives;
                 _weights := weights |} in
  _ <- __attrs_post_init__ self ;;
  ret self.

(** [f"{idx}"] *)
Definition str_of_nat (idx : nat) : string :=
  NilZero.string_of_uint (Nat.to_uint idx).

(** [DecisionMatrix.from_mcda_data].  Unpacking [np.shape(mtx)] into two
    names raises exactly when the shape has another length. *)
Definition from_mcda_data (mtx : ndarray num) (objectives : list (pyobj num))
    (weights : option (list num)) (anames cnames : option (list string))
  : result num DecisionMatrix :=
  match shape mtx with
  | [a_number; c_number] =>
      let anames :=
        match anames with
        | None => map (fun idx => ("A" ++ str_of_nat idx)%string) (seq 0 a_number)
        | Some l => l
        end in
      if negb (length anames =? a_number) then
        raise (ValueError (Anames_must_have_elements a_number))
      else
        let cnames :=
          match cnames with
          | None => map (fun idx => ("C" ++ str_of_nat idx)%string) (seq 0 c_number)
          | Some l => l
          end in
        if negb (length cnames =? c_number) then
          raise (ValueError (Cnames_must_have_elements c_number))
        else
          let weights :=
            match weights with
            | None => repeat one c_number
            | Some w => w
            end in
          let data_df :=
            {| index := anames; columns := cnames; cells := data mtx |} in
          DecisionMatrix_init data_df objectives weights
  | s => raise (ValueError (Mtx_must_have_2_dimensions (length s)))
  end.

Definition mkdm := from_mcda_data.

(** The read-only properties. *)
Definition anames (self : DecisionMatrix) : list string :=
  index (_data_df self).

Definition cnames (self : DecisionMatrix) : list string :=
  columns (_data_df self).

Definition mtx (self : DecisionMatrix) : ndarray num :=
  to_numpy (_data_df self).

Definition weights (self : DecisionMatrix) : list num := _weights self.

Definition objectives (self : DecisionMatrix) : list Objective :=
  _objectives self.

(** [int(v)] for the values a member of [Objective] has: the glyphs are no
    integer literal, a frozenset is no number. *)
Definition int_of_value (v : pyobj num) : result num Z :=
  match v with
  | PyInt z => ret z
  | PyStr s => raise (ValueError (Invalid_literal_for_int s))
  | _ => raise (TypeError Int_argument_must_be_a_number)
  end.

(** [DecisionMatrix.objectives_values] *)
Definition objectives_values (self : DecisionMatrix) : result num (list Z) :=
  mapM (fun o => int_of_value (value o)) (_objectives self).

(** [DecisionMatrix.copy] *)
Definition copy (self : DecisionMatrix) : result num DecisionMatrix :=
  DecisionMatrix_init (_data_df self)
    (map PyObjective (_objectives self)) (_weights self).

(** [DecisionMatrix.to_dataframe]: an object table whose first row holds
    the objectives, the second the weights, the others the matrix.
    [np.vstack] raises unless the three blocks have as many columns. *)
Definition to_dataframe (self : DecisionMatrix)
  : result num (DataFrame (pyobj num)) :=
  let c := length (cnames self) in
  if (length (_objectives self) =? length (_weights self))
     && (length (_weights self) =? c) then
    let data :=
      map PyObjective (_objectives self)
      ++ map PyFloat (_weights self)
      ++ map PyFloat (data (mtx self)) in
    ret {| index := ["objectives"; "weights"] ++ anames self;
           columns := cnames self;
           cells := data |}
  else raise (ValueError All_the_input_array_dimensions_must_match).

(** Whatever [==] may be handed as its right operand. *)
Inductive pyany : Type :=
| Any_DecisionMatrix (dm : DecisionMatrix)
| Any_DataFrame (df : DataFrame num)
| Any_object (v : pyobj num).

(** [DecisionMatrix.__eq__] *)
Definition __eq__ (self : DecisionMatrix) (other : pyany) : bool :=
  match other with
  | Any_DecisionMatrix other =>
      DataFrame_equals (_data_df self) (_data_df other)
      && np_array_equal Objective_eqb (_objectives self) (_objectives other)
      && np_array_equal eqb (_weights self) (_weights other)
  | _ => false
  end.

(** [DecisionMatrix.__ne__] *)
Definition __ne__ (self : DecisionMatrix) (other : pyany) : bool :=
  negb (__eq__ self other).

(* ===================================================================== *)
(** ** numpy, as far as [simple.py] calls it *)

Definition prod (dims : list nat) : nat := fold_right Nat.mul 1 dims.

(** [np.inner(a, b)] for one-dimensional [b]: the inner product of every
    row along the last axis of [a] with [b] (a zero-dimensional [a] scales
    [b]).  The last axis must be as long as [b]; the result has the shape
    of [a] without it. *)
Definition np_inner (a : ndarray num) (b : list num)
  : result num (ndarray num) :=
  match rev (shape a) with
  | [] =>
      ret {| shape := [length b];
             data := map (mul (nth 0 (data a) zero)) b |}
  | c :: lead =>
      if c =? length b then
        ret {| shape := rev lead;
               data :=
                 map (fun i =>
                        np_dot i
                          (map (fun j => nth (i * c + j) (data a) zero)
                               (seq 0 c))
                          b)
                     (seq 0 (prod lead)) |}
      else raise (ValueError Shapes_not_aligned)
  end.

(** [np.squeeze] drops the axes of length one and leaves the data as it is:
    a single score becomes a zero-dimensional array of that score. *)
Definition np_squeeze (a : ndarray num) : ndarray num :=
  {| shape := filter (fun d => negb (d =? 1)) (shape a); data := data a |}.

(** [np.log10(a)] *)
Definition np_log10 (a : ndarray num) : ndarray num :=
  {| shape := shape a; data := map log10 (data a) |}.

(** [np.multiply(a, b)] for one-dimensional [b], with numpy's broadcasting:
    the last axis of [a] and [b] must be as long, or one of them of
    length one. *)
Definition np_multiply (a : ndarray num) (b : list num)
  : result num (ndarray num) :=
  match rev (shape a) with
  | [] =>
      ret {| shape := [length b];
             data := map (mul (nth 0 (data a) zero)) b |}
  | c :: lead =>
      if c =? length b then
        ret {| shape := shape a;
               data := map (fun kx => mul (snd kx) (nth (fst kx mod c) b zero))
                           (combine (seq 0 (length (data a))) (data a)) |}
      else if length b =? 1 then
        ret {| shape := shape a;
               data := map (fun x => mul x (nth 0 b zero)) (data a) |}
      else if c =? 1 then
        ret {| shape := rev (length b :: lead);
               data := flat_map (fun x => map (mul x) b) (data a) |}
      else raise (ValueError Operands_could_not_be_broadcast_together)
  end.

(** [np.sum(a, axis=1)]: the sum of every run along axis 1; the result has
    the shape of [a] without that axis.  An array of fewer than two
    dimensions has no axis 1. *)
Definition np_sum_axis1 (a : ndarray num) : result num (ndarray num) :=
  match shape a with
  | n :: m :: rest =>
      let inner := prod rest in
      ret {| shape := n :: rest;
             data :=
               flat_map
                 (fun i =>
                    map (fun k =>
                           np_add_reduce
                             (map (fun j =>
                                     nth ((i * m + j) * inner + k)
                                         (data a) zero)
                                  (seq 0 m)))
                        (seq 0 inner))
                 (seq 0 n) |}
  | s => raise (ValueError (Axis_1_is_out_of_bounds (length s)))
  end.

(** [np.any(a <= 0)] *)
Definition np_any_le_0 (a : ndarray num) : bool :=
  existsb (fun x => leb x zero) (data a).

(* ===================================================================== *)
(** ** Ranking *)

(** [insert_by before i l] puts [i] in front of the first element of [l]
    that must not come before it. *)
Fixpoint insert_by (before : nat -> nat -> bool) (i : nat) (l : list nat)
  : list nat :=
  match l with
  | [] => [i]
  | k :: l' => if before k i then k :: insert_by before i l' else i :: l
  end.

(** A stable sort of the positions [0 .. n-1]: each position is inserted
    among the later ones, and only a strictly better one overtakes it. *)
Definition stable_argsort (before : nat -> nat -> bool) (n : nat) : list nat :=
  fold_right (insert_by before) [] (seq 0 n).

Fixpoint position (i : nat) (l : list nat) : nat :=
  match l with
  | [] => 0
  | k :: l' => if i =? k then 0 else S (position i l')
  end.

(** [overtakes arr reverse k i]: the score at [k] is strictly better than
    the score at [i] (higher when [reverse], lower otherwise), so that [k]
    is sorted in front of [i] although it may come later. *)
Definition overtakes (arr : list num) (reverse : bool) (k i : nat) : bool :=
  if reverse then ltb (nth i arr zero) (nth k arr zero)
  else ltb (nth k arr zero) (nth i arr zero).

(** Modelled from the spec: [skcriteria/utils/rank.py] ([rank_values]) is
    not among the sources.  The spec (4.4, Ties): scores become ranks by a
    stable descending (or ascending) sort; equal scores receive distinct,
    consecutive ranks broken by the original order; rank 1 is the best.
    [reverse=True] is the descending sort.  [arr] is the elements of the
    array of scores, in their order. *)
Definition rank_values (arr : list num) (reverse : bool) : list nat :=
  let order := stable_argsort (overtakes arr reverse) (length arr) in
  map (fun i => S (position i order)) (seq 0 (length arr)).

(** Modelled from the spec: [RankResult] ([skcriteria/core]) is not among
    the sources.  The spec (3): the method's name, the labels of the
    alternatives, the ranks aligned with them, and the extra values. *)
Record RankResult : Type := {
  method : string;
  alternatives : list string;
  values : list nat;
  extra : list (string * ndarray num)
}.

(** Modelled from the spec: [SKCDecisionMakerABC] ([skcriteria/core]) is not
    among the sources; the two methods are the ones [simple.py] overrides. *)
Record SKCDecisionMakerABC : Type := {
  _evaluate_data :
    ndarray num -> list num -> list Z ->
    result num (list nat * list (string * ndarray num));
  _make_result :
    list string -> list nat -> list (string * ndarray num) -> RankResult
}.

(** Modelled from the spec: the [rank] operation of the base class is not
    among the sources.  The spec (4.4): extract the matrix, the weights
    and the objective codes; let the method validate and score; wrap the
    ranks into a RankResult. *)
Definition rank (decision_maker : SKCDecisionMakerABC) (dm : DecisionMatrix)
  : result num RankResult :=
  objectives <- objectives_values dm ;;
  ' (values, extra) <-
    _evaluate_data decision_maker (mtx dm) (weights dm) objectives ;;
  ret (_make_result decision_maker (anames dm) values extra).

(** [x in objectives] for the array of objective codes. *)
Definition code_in (x : pyobj num) (objectives : list Z) : bool :=
  existsb (fun o => py_eq (PyInt o) x) objectives.

(** [wsm] *)
Definition wsm (matrix : ndarray num) (weights : list num)
  : result num (list nat * ndarray num) :=
  rank_mtx <- np_inner matrix weights ;;
  let score := np_squeeze rank_mtx in
  ret (rank_values (data score) true, score).

(** [class WeightedSumModel] *)
Definition WeightedSumModel : SKCDecisionMakerABC := {|
  _evaluate_data := fun matrix weights objectives =>
    if code_in (value MIN) objectives then
      raise (ValueError WeightedSumModel_cant_operate_with_minimize_objective)
    else
      ' (rank, score) <- wsm matrix weights ;;
      ret (rank, [("score", score)]);
  _make_result := fun alternatives values extra =>
    {| method := "WeightedSumModel";
       alternatives := alternatives;
       values := values;
       extra := extra |}
|}.

(** [wpm] *)
Definition wpm (matrix : ndarray num) (weights : list num)
  : result num (list nat * ndarray num) :=
  let lmtx := np_log10 matrix in
  rank_mtx <- np_multiply lmtx weights ;;
  score <- np_sum_axis1 rank_mtx ;;
  ret (rank_values (data score) true, score).

(** [class WeightedProductModel] *)
Definition WeightedProductModel : SKCDecisionMakerABC := {|
  _evaluate_data := fun matrix weights objectives =>
    if code_in (value MIN) objectives then
      raise (ValueError
               WeightedProductModel_cant_operate_with_minimize_objective)
    else if np_any_le_0 matrix then
      raise (ValueError WeightedProductModel_cant_operate_with_values_le_0)
    else
      ' (rank, score) <- wpm matrix weights ;;
      ret (rank, [("score", score)]);
  _make_result := fun alternatives values extra =>
    {| method := "WeightedProductModel";
       alternatives := alternatives;
       values := values;
       extra := extra |}
|}.

(* ===================================================================== *)
(** ** The words of the specification *)

Definition n_alternatives (dm : DecisionMatrix) : nat :=
  length (index (_data_df dm)).

Definition n_criteria (dm : DecisionMatrix) : nat :=
  length (columns (_data_df dm)).

(** [len(objectives) == len(weights) == number of columns] *)
Definition counts_invariant (dm : DecisionMatrix) : Prop :=
  length (_objectives dm) = n_criteria dm
  /\ length (_weights dm) = n_criteria dm.

(** The table has a cell for every alternative and criterion. *)
Definition rectangular (dm : DecisionMatrix) : Prop :=
  length (cells (_data_df dm)) = n_alternatives dm * n_criteria dm.

(** [x_ij] and [w_j] *)
Definition x_ (dm : DecisionMatrix) (i j : nat) : num :=
  nth (i * n_criteria dm + j) (cells (_data_df dm)) zero.

Definition w_ (dm : DecisionMatrix) (j : nat) : num :=
  nth j (_weights dm) zero.

(** The row of alternative [i]: [x_i0 .. x_i(C-1)]. *)
Definition x_row (dm : DecisionMatrix) (i : nat) : list num :=
  map (x_ dm i) (seq 0 (n_criteria dm)).

(** The score of alternative [i] in the weighted sum model: the inner
    product that numpy makes of its row and the weights. *)
Definition weighted_sum (dm : DecisionMatrix) (i : nat) : num :=
  np_dot i (x_row dm i) (_weights dm).

(** The score of alternative [i] in the weighted product model: the sum
    that numpy makes of the products [log10 x_ij * w_j]. *)
Definition weighted_log_sum (dm : DecisionMatrix) (i : nat) : num :=
  np_add_reduce
    (map (fun j => mul (log10 (x_ dm i j)) (w_ dm j))
         (seq 0 (n_criteria dm))).

(** The shape of the scores of [a] alternatives once the axes of length one
    are squeezed out. *)
Definition squeezed (a : nat) : list nat := if a =? 1 then [] else [a].

(** [<] is a strict weak order on the scores: it is asymmetric, and a score
    that is not below another is not below a third unless the third is
    above the other.  Floats are so ordered when none of them is NaN. *)
Definition strict_weak_order_on (arr : list num) : Prop :=
  (forall i k, i < length arr -> k < length arr ->
     ltb (nth i arr zero) (nth k arr zero) = true ->
     ltb (nth k arr zero) (nth i arr zero) = false)
  /\ (forall i k m,
        i < length arr -> k < length arr -> m < length arr ->
        ltb (nth i arr zero) (nth m arr zero) = true ->
        ltb (nth i arr zero) (nth k arr zero) = true
        \/ ltb (nth k arr zero) (nth m arr zero) = true).

Definition all_MAX (dm : DecisionMatrix) : Prop :=
  Forall (fun o => o = MAX) (_objectives dm).

(** The objective is one of the two tags. *)
Definition is_tag (o : Objective) : Prop := o = MIN \/ o = MAX.

(** A higher score receives a smaller rank. *)
Definition higher_is_better (score : list num) (ranks : list nat) : Prop :=
  forall i k, i < length score -> k < length score ->
    ltb (nth k score zero) (nth i score zero) = true ->
    nth i ranks 0 < nth k ranks 0.

(** The alternative of rank 1 has a score that none exceeds. *)
Definition rank_1_is_maximal (score : list num) (ranks : list nat) : Prop :=
  forall i k, i < length score -> k < length score ->
    nth i ranks 0 = 1 ->
    ltb (nth i score zero) (nth k score zero) = false.

(** Of two alternatives the earlier has the smaller rank, unless the score
    of the later is strictly higher: equal scores keep their order. *)
Definition ties_by_position (score : list num) (ranks : list nat) : Prop :=
  forall i k, i < k -> k < length score ->
    ltb (nth i score zero) (nth k score zero) = false ->
    nth i ranks 0 < nth k ranks 0.

(** A supplied sequence has, or has not, the count inferred from the
    matrix; an omitted one is neither. *)
Definition agrees {T} (supplied : option (list T)) (n : nat) : Prop :=
  forall l, supplied = Some l -> length l = n.

Definition disagrees {T} (supplied : option (list T)) (n : nat) : Prop :=
  exists l, supplied = Some l /\ length l <> n.

(** The weights a matrix of [c] criteria is built with. *)
Definition weights_or_ones (weights : option (list num)) (c : nat)
  : list num :=
  match weights with None => repeat one c | Some w => w end.

(** Reading back the table that [to_dataframe] writes: the float in each
    cell of a block of float cells, if they all are floats. *)
Fixpoint float_cells (l : list (pyobj num)) : option (list num) :=
  match l with
  | [] => Some []
  | PyFloat x :: l' =>
      match float_cells l' with Some xs => Some (x :: xs) | None => None end
  | _ :: _ => None
  end.

(** [make] on the parts of a summary table: the first row as the
    objectives, the second as the weights, the other rows as the matrix,
    with the labels of the table.  [None] when the table is not one that
    [to_dataframe] writes. *)
Definition make_from_dataframe (df : DataFrame (pyobj num))
  : option (result num DecisionMatrix) :=
  let c := length (columns df) in
  match float_cells (firstn c (skipn c (cells df))),
        float_cells (skipn (2 * c) (cells df)) with
  | Some w, Some m =>
      Some (mkdm {| shape := [length (index df) - 2; c]; data := m |}
              (firstn c (cells df)) (Some w)
              (Some (skipn 2 (index df))) (Some (columns df)))
  | _, _ => None
  end.

(** Equality of two matrices read element by element with [==]: the same
    labels, and [==] true of every pair of cells, of objectives and of
    weights. *)
Definition elementwise_equal (a b : DecisionMatrix) : Prop :=
  index (_data_df a) = index (_data_df b)
  /\ columns (_data_df a) = columns (_data_df b)
  /\ Forall2 (fun x y => eqb x y = true)
       (cells (_data_df a)) (cells (_data_df b))
  /\ _objectives a = _objectives b
  /\ Forall2 (fun x y => eqb x y = true) (_weights a) (_weights b).

(** Equality as [__eq__] computes it: pandas lets two NaN cells of the table
    pass for equal, numpy's [array_equal] does not for the weights. *)
Definition equal_as_compared (a b : DecisionMatrix) : Prop :=
  index (_data_df a) = index (_data_df b)
  /\ columns (_data_df a) = columns (_data_df b)
  /\ Forall2 (fun x y => cell_equiv x y = true)
       (cells (_data_df a)) (cells (_data_df b))
  /\ _objectives a = _objectives b
  /\ Forall2 (fun x y => eqb x y = true) (_weights a) (_weights b).

(** Two positions tie when neither score is strictly better. *)
Definition tied (arr : list num) (reverse : bool) (i k : nat) : Prop :=
  overtakes arr reverse i k = false /\ overtakes arr reverse k i = false.

(* ===================================================================== *)
(** ** Labels for display ([plot.py]) *)

(** [f"{v}"] for a value that is a text or [None]. *)
Definition format_optional (v : option string) : string :=
  match v with Some s => s | None => "None" end.

(** [class DecisionMatrixPlotter]: the matrix it draws. *)
Record DecisionMatrixPlotter : Type := {
  _dm : DecisionMatrix
}.

(** [f"{c} {o.to_string()}"] *)
Definition label_of (c : string) (o : Objective) : string :=
  (c ++ " " ++ format_optional (to_string o))%string.

(** [DecisionMatrixPlotter._criteria_labels]: one label for every pair that
    [zip] makes of a criterion and an objective. *)
Definition _criteria_labels (self : DecisionMatrixPlotter) : list string :=
  let dm := _dm self in
  map (fun co => label_of (fst co) (snd co))
      (combine (cnames dm) (objectives dm)).

(** The objective code of a tag. *)
Definition code_of_tag (o : Objective) : Z :=
  match o with MIN => (-1)%Z | _ => 1%Z end.

End Model.

Arguments DecisionMatrix : clear implicits.
Arguments RankResult : clear implicits.
Arguments SKCDecisionMakerABC : clear implicits.
Arguments pyany : clear implicits.
Arguments DecisionMatrixPlotter : clear implicits.

(* ===================================================================== *)
(** ** Sample inputs *)

(** Three alternatives and two criteria over the integers; the scores of
    the last two alternatives tie in the weighted sum model. *)
Definition sample_dm : DecisionMatrix Z := {|
  _data_df := {| index := ["A0"; "A1"; "A2"];
                 columns := ["C0"; "C1"];
                 cells := [1; 2; 3; 4; 3; 4]%Z |};
  _objectives := [MAX; MAX];
  _weights := [2; 1]%Z
|}.

(** The same table with a criterion to minimize. *)
Definition sample_dm_min : DecisionMatrix Z := {|
  _data_df := _data_df sample_dm;
  _objectives := [MAX; MIN];
  _weights := [2; 1]%Z
|}.

(** The floor of the base-ten logarithm of a positive integer (0 below 10),
    the stand-in for [np.log10] where the integers are the numbers. *)
Fixpoint Zlog10_fuel (fuel : nat) (z : Z) : Z :=
  match fuel with
  | O => 0%Z
  | S fuel' => if (z <? 10)%Z then 0%Z else (1 + Zlog10_fuel fuel' (z / 10))%Z
  end.

Definition Zlog10 (z : Z) : Z := Zlog10_fuel (Z.to_nat z) z.

(** One alternative and one criterion over float64, with the weight NaN. *)
Definition nan_weight_dm : DecisionMatrix float := {|
  _data_df := {| index := ["A0"]; columns := ["C0"];
                 cells := [PrimFloat.one] |};
  _objectives := [MAX];
  _weights := [PrimFloat.nan]
|}.

(** The same with the weight 1 and the cell NaN. *)
Definition nan_cell_dm : DecisionMatrix float := {|
  _data_df := {| index := ["A0"]; columns := ["C0"];
                 cells := [PrimFloat.nan] |};
  _objectives := [MAX];
  _weights := [PrimFloat.one]
|}.

(** The table of [sample_dm] as the array that [mkdm] is handed. *)
Definition sample_mtx : ndarray Z :=
  {| shape := [3; 2]; data := [1; 2; 3; 4; 3; 4]%Z |}.

(** One order of accumulation: the products of every row alike are rounded
    one by one and added from the left, starting at 0; a run is summed so
    as well.  Every order gives these results in exact arithmetic. *)
Definition dot_from_left {num} `{Numeric num} (i : nat) (r b : list num)
  : num :=
  fold_left add (map (fun xw => mul (fst xw) (snd xw)) (combine r b)) zero.

Definition sum_from_left {num} `{Numeric num} (l : list num) : num :=
  fold_left add l zero.

(** What the weighted sum model returns on [sample_dm]. *)
Definition sample_result : RankResult Z := {|
  method := "WeightedSumModel";
  alternatives := ["A0"; "A1"; "A2"];
  values := [3; 1; 2];
  extra := [("score", {| shape := [3]; data := [4; 10; 10]%Z |})]
|}.

(** Three alternatives and two criteria over float64; the scores of the
    last two alternatives tie in both models.  Every product and every sum
    of the scores is exact in float64, so that every order of accumulation
    gives the same scores. *)
Definition float_dm : DecisionMatrix float := {|
  _data_df := {| index := ["A0"; "A1"; "A2"];
                 columns := ["C0"; "C1"];
                 cells := [10; 100; 100; 10; 100; 10]%float |};
  _objectives := [MAX; MAX];
  _weights := [1.5; 0.25]%float
|}.

(** A table of three rows and two columns over float64, as an array. *)
Definition float_mtx : ndarray float :=
  {| shape := [3; 2]; data := [10; 100; 100; 100; 1; 10]%float |}.

(** What the weighted sum model returns on [float_dm]. *)
Definition float_wsm_result : RankResult float := {|
  method := "WeightedSumModel";
  alternatives := ["A0"; "A1"; "A2"];
  values := [3; 1; 2];
  extra := [("score", {| shape := [3];
                         data := [40; 152.5; 152.5]%float |})]
|}.

(** [np.log10] where this development needs its values: at 1, 10 and 100,
    where it is exact, and at NaN.  (The stand-in is NaN elsewhere.) *)
Definition log10_of_powers (x : float) : float :=
  if PrimFloat.eqb x 1 then 0%float
  else if PrimFloat.eqb x 10 then 1%float
  else if PrimFloat.eqb x 100 then 2%float
  else PrimFloat.nan.

(** What the weighted product model returns on [float_dm]. *)
Definition float_wpm_result : RankResult float := {|
  method := "WeightedProductModel";
  alternatives := ["A0"; "A1"; "A2"];
  values := [3; 1; 2];
  extra := [("score", {| shape := [3];
                         data := [2; 3.25; 3.25]%float |})]
|}.

(** Three alternatives and one criterion over float64, the cell of the
    second NaN, as [mkdm] builds it from the table and the alias alone. *)
Definition nan_score_mtx : ndarray float :=
  {| shape := [3; 1]; data := [1; PrimFloat.nan; 100]%float |}.

Definition nan_score_dm : DecisionMatrix float := {|
  _data_df := {| index := ["A0"; "A1"; "A2"];
                 columns := ["C0"];
                 cells := [1; PrimFloat.nan; 100]%float |};
  _objectives := [MAX];
  _weights := [1]%float
|}.

(** What the weighted sum model returns on [nan_score_dm]: the scores are
    the cells, and the highest is ranked last. *)
Definition nan_wsm_result : RankResult float := {|
  method := "WeightedSumModel";
  alternatives := ["A0"; "A1"; "A2"];
  values := [1; 2; 3];
  extra := [("score", {| shape := [3];
                         data := [1; PrimFloat.nan; 100]%float |})]
|}.

(** The same with the cells 10, NaN and 100, whose logarithms are 1, NaN
    and 2. *)
Definition nan_log_mtx : ndarray float :=
  {| shape := [3; 1]; data := [10; PrimFloat.nan; 100]%float |}.

Definition nan_log_dm : DecisionMatrix float := {|
  _data_df := {| index := ["A0"; "A1"; "A2"];
                 columns := ["C0"];
                 cells := [10; PrimFloat.nan; 100]%float |};
  _objectives := [MAX];
  _weights := [1]%float
|}.

(** What the weighted product model returns on [nan_log_dm]. *)
Definition nan_wpm_result : RankResult float := {|
  method := "WeightedProductModel";
  alternatives := ["A0"; "A1"; "A2"];
  values := [1; 2; 3];
  extra := [("score", {| shape := [3];
                         data := [1; PrimFloat.nan; 2]%float |})]
|}.

(** The plotter of [sample_dm]. *)
Definition sample_plotter : DecisionMatrixPlotter Z :=
  {| _dm := sample_dm |}.

Unset Implicit Arguments.

(* ===================================================================== *)
(** * Properties *)

(** ** The error monad *)

Section Monad.

Context {num : Type}.

Lemma bind_inr {A B} (m : result num A) (k : A -> result num B) (b : B) :
  bind m k = inr b -> exists a, m = inr a /\ k a = inr b.
Proof.
  destruct m as [e | a]; simpl; intros E; [discriminate | eauto].
Qed.

Lemma bind_inl {A B} (m : result num A) (k : A -> result num B) (e : exn num) :
  bind m k = inl e -> m = inl e \/ exists a, m = inr a /\ k a = inl e.
Proof.
  destruct m as [e' | a]; simpl; intros E; [left; congruence | right; eauto].
Qed.

Lemma mapM_inr_length {A B} (f : A -> result num B) (l : list A) (bs : list B) :
  mapM f l = inr bs -> length bs = length l.
Proof.
  revert bs; induction l as [| a l IH]; simpl; intros bs E.
  - inversion E; reflexivity.
  - destruct (f a) as [e | b]; simpl in E; [discriminate |].
    destruct (mapM f l) as [e | bs']; simpl in E; [discriminate |].
    inversion E; subst; simpl; f_equal; apply IH; reflexivity.
Qed.

Lemma mapM_all_inr {A B} (f : A -> result num B) (g : A -> B) (l : list A) :
  (forall a, In a l -> f a = inr (g a)) -> mapM f l = inr (map g l).
Proof.
  induction l as [| a l IH]; simpl; intros Hf; [reflexivity |].
  rewrite (Hf a (or_introl eq_refl)); simpl.
  rewrite IH by (intros; apply Hf; right; assumption).
  reflexivity.
Qed.

Lemma mapM_inl_some {A B} (f : A -> result num B) (l : list A) (e : exn num) :
  mapM f l = inl e -> exists a, In a l /\ f a = inl e.
Proof.
  induction l as [| a l IH]; simpl; intros E; [discriminate |].
  destruct (f a) as [e' | b] eqn:Fa; simpl in E.
  - inversion E; subst; exists a; auto.
  - destruct (mapM f l) as [e' | bs]; simpl in E; [| discriminate].
    inversion E; subst. destruct (IH eq_refl) as (a' & Hin & Ha').
    exists a'; auto.
Qed.

Lemma mapM_some_inl {A B} (f : A -> result num B) (l : list A) :
  (exists a e, In a l /\ f a = inl e) -> exists e, mapM f l = inl e.
Proof.
  induction l as [| a l IH]; simpl; intros (a' & e & Hin & Ha'); [contradiction |].
  destruct (f a) as [e' | b] eqn:Fa; simpl; [eauto |].
  destruct Hin as [-> | Hin]; [congruence |].
  destruct IH as (e'' & ->); simpl; eauto.
Qed.

End Monad.

(** ** Sorting positions *)

Section Sorting.

Variable before : nat -> nat -> bool.

Lemma insert_by_perm (i : nat) (l : list nat) :
  Permutation (insert_by before i l) (i :: l).
Proof.
  induction l as [| k l IH]; simpl; [reflexivity |].
  destruct (before k i); [| reflexivity].
  rewrite IH. apply perm_swap.
Qed.

Lemma sort_positions_perm (l : list nat) :
  Permutation (fold_right (insert_by before) [] l) l.
Proof.
  induction l as [| i l IH]; simpl; [reflexivity |].
  rewrite insert_by_perm. constructor. exact IH.
Qed.

Lemma stable_argsort_perm (n : nat) :
  Permutation (stable_argsort before n) (seq 0 n).
Proof. apply sort_positions_perm. Qed.

Lemma position_lt_length (i : nat) (l : list nat) :
  In i l -> position i l < length l.
Proof.
  induction l as [| k l IH]; simpl; [contradiction |].
  intros [-> | Hin].
  - rewrite Nat.eqb_refl. lia.
  - destruct (i =? k); [lia | specialize (IH Hin); lia].
Qed.

Lemma position_inj (a c : nat) (l : list nat) :
  In a l -> In c l -> position a l = position c l -> a = c.
Proof.
  induction l as [| k l IH]; simpl; [contradiction |].
  intros Ha Hc.
  destruct (Nat.eqb_spec a k) as [-> | Hak], (Nat.eqb_spec c k) as [-> | Hck];
    try congruence; try discriminate.
  intros E. apply IH; [intuition congruence | intuition congruence | lia].
Qed.

Lemma map_position_nodup (l : list nat) :
  NoDup l -> map (fun i => position i l) l = seq 0 (length l).
Proof.
  induction 1 as [| k l Hk Hl IH]; simpl; [reflexivity |].
  rewrite Nat.eqb_refl. f_equal.
  rewrite <- seq_shift, <- IH, map_map.
  apply map_ext_in. intros i Hi.
  destruct (Nat.eqb_spec i k) as [-> | _]; [contradiction | reflexivity].
Qed.

(** The inserted position comes before every one that may not overtake it. *)
Lemma insert_by_self_first (x k : nat) (s : list nat) :
  In k s -> before k x = false -> ~ In x s ->
  position x (insert_by before x s) < position k (insert_by before x s).
Proof.
  induction s as [| z s IH]; simpl; [contradiction |].
  intros Hk Hb Hx.
  assert (Hxz : x <> z) by (intros ->; apply Hx; left; reflexivity).
  assert (Hxs : ~ In x s) by (intros H; apply Hx; right; exact H).
  destruct (before z x) eqn:Hz; simpl.
  - destruct (Nat.eqb_spec x z) as [E | _]; [contradiction |].
    destruct (Nat.eqb_spec k z) as [-> | Hkz]; [congruence |].
    destruct Hk as [E | Hk]; [congruence |].
    apply -> Nat.succ_lt_mono. apply IH; assumption.
  - rewrite Nat.eqb_refl.
    destruct (Nat.eqb_spec k x) as [-> | _]; [| lia].
    exfalso. apply Hx. exact Hk.
Qed.

(** Inserting keeps the order of the positions that were there. *)
Lemma insert_by_keeps_order (x a c : nat) (s : list nat) :
  a <> x -> c <> x -> position a s < position c s ->
  position a (insert_by before x s) < position c (insert_by before x s).
Proof.
  intros Ha Hc. induction s as [| z s IH]; simpl; [lia |].
  intros Hlt.
  destruct (before z x); simpl.
  - destruct (a =? z), (c =? z); lia.
  - destruct (Nat.eqb_spec a x) as [-> | _]; [congruence |].
    destruct (Nat.eqb_spec c x) as [-> | _]; [congruence |].
    destruct (a =? z), (c =? z); lia.
Qed.

(** Stability: of two positions, the earlier stays first unless the later
    is strictly better. *)
Lemma sort_positions_stable (l : list nat) :
  NoDup l ->
  forall l1 i l2 k,
    l = l1 ++ i :: l2 -> In k l2 -> before k i = false ->
    position i (fold_right (insert_by before) [] l)
    < position k (fold_right (insert_by before) [] l).
Proof.
  induction 1 as [| x l Hx Hl IH]; intros l1 i l2 k E Hk Hb.
  - destruct l1; discriminate.
  - simpl. destruct l1 as [| y l1]; simpl in E; inversion E; subst.
    + apply insert_by_self_first; [| exact Hb |].
      * apply (Permutation_in _ (Permutation_sym (sort_positions_perm _))).
        exact Hk.
      * intros Hin. apply Hx.
        apply (Permutation_in _ (sort_positions_perm _)). exact Hin.
    + assert (Hi : In i (l1 ++ i :: l2)) by (apply in_elt).
      assert (Hk' : In k (l1 ++ i :: l2))
        by (apply in_or_app; right; right; exact Hk).
      apply insert_by_keeps_order.
      * intros ->. contradiction.
      * intros ->. contradiction.
      * apply (IH l1 i l2 k eq_refl Hk Hb).
Qed.

Lemma stable_argsort_stable (n i k : nat) :
  i < k -> k < n -> before k i = false ->
  position i (stable_argsort before n) < position k (stable_argsort before n).
Proof.
  intros Hik Hkn Hb. unfold stable_argsort.
  apply sort_positions_stable
    with (l1 := seq 0 i) (l2 := seq (S i) (n - S i));
    [apply seq_NoDup | | | exact Hb].
  - replace n with (i + S (n - S i)) at 1 by lia.
    rewrite seq_app. reflexivity.
  - apply in_seq. lia.
Qed.

(** With a strict weak order on the positions below [n] the result is
    sorted: no position is strictly better than one placed before it. *)
Variable n : nat.
Hypothesis before_asym :
  forall x y, x < n -> y < n -> before x y = true -> before y x = false.
Hypothesis before_negtrans :
  forall x y z, x < n -> y < n -> z < n ->
    before x z = true -> before x y = true \/ before y z = true.

Lemma insert_by_sorted (x : nat) (s : list nat) :
  x < n -> Forall (fun a => a < n) s ->
  StronglySorted (fun a c => before c a = false) s ->
  StronglySorted (fun a c => before c a = false) (insert_by before x s).
Proof.
  intros Hx Hn. induction 1 as [| z s Hs IH Hz]; simpl.
  - repeat constructor.
  - inversion Hn as [| ? ? Hzn Hsn]; subst.
    destruct (before z x) eqn:Hzx.
    + constructor; [exact (IH Hsn) |].
      apply (Permutation_Forall (Permutation_sym (insert_by_perm x s))).
      constructor; [apply before_asym; assumption | exact Hz].
    + constructor; [constructor; assumption |].
      constructor; [exact Hzx |].
      rewrite Forall_forall in Hz, Hsn |- *. intros c Hc.
      destruct (before c x) eqn:Hcx; [| reflexivity].
      destruct (before_negtrans c z x (Hsn c Hc) Hzn Hx Hcx)
        as [Hcz | Hzx']; [| congruence].
      rewrite (Hz c Hc) in Hcz. discriminate.
Qed.

Lemma sort_positions_sorted (l : list nat) :
  Forall (fun a => a < n) l ->
  StronglySorted (fun a c => before c a = false)
    (fold_right (insert_by before) [] l).
Proof.
  induction 1 as [| i l Hi Hl IH]; simpl.
  - constructor.
  - apply insert_by_sorted; [exact Hi | | exact IH].
    apply (Permutation_Forall (Permutation_sym (sort_positions_perm l))).
    exact Hl.
Qed.

Lemma stable_argsort_sorted :
  StronglySorted (fun a c => before c a = false) (stable_argsort before n).
Proof.
  unfold stable_argsort. apply sort_positions_sorted.
  apply Forall_forall. intros a Ha. apply in_seq in Ha. lia.
Qed.

Lemma sorted_position (l : list nat) (a c : nat) :
  StronglySorted (fun a c => before c a = false) l ->
  In c l -> position a l < position c l -> before c a = false.
Proof.
  induction 1 as [| z s Hs IH Hz]; simpl; [contradiction |].
  intros Hc Hlt.
  destruct (Nat.eqb_spec a z) as [-> | Haz].
  - destruct (Nat.eqb_spec c z) as [-> | Hcz]; [lia |].
    destruct Hc as [-> | Hc]; [congruence |].
    rewrite Forall_forall in Hz. apply Hz. exact Hc.
  - destruct (Nat.eqb_spec c z) as [-> | Hcz]; [lia |].
    destruct Hc as [-> | Hc]; [congruence |].
    apply IH; [exact Hc | lia].
Qed.

(** A strictly better position is placed first. *)
Lemma stable_argsort_better_first (i k : nat) :
  i < n -> k < n -> before i k = true ->
  position i (stable_argsort before n) < position k (stable_argsort before n).
Proof.
  intros Hi Hk Hb.
  assert (In i (stable_argsort before n) /\ In k (stable_argsort before n))
    as [Ii Ik].
  { split; apply (Permutation_in _ (Permutation_sym (stable_argsort_perm n)));
      apply in_seq; lia. }
  destruct (Nat.lt_trichotomy (position i (stable_argsort before n))
              (position k (stable_argsort before n))) as [Hlt | [Heq | Hgt]].
  - exact Hlt.
  - apply position_inj in Heq; [subst | assumption | assumption].
    rewrite (before_asym _ _ Hi Hi Hb) in Hb. discriminate.
  - rewrite (sorted_position _ k i stable_argsort_sorted Ii Hgt) in Hb.
    discriminate.
Qed.

(** Nothing is strictly better than the position placed first. *)
Lemma stable_argsort_first_best (i k : nat) :
  i < n -> k < n -> position i (stable_argsort before n) = 0 ->
  before k i = false.
Proof.
  intros Hi Hk H0.
  destruct (before k i) eqn:Hb; [| reflexivity].
  pose proof (stable_argsort_better_first k i Hk Hi Hb) as Hlt. lia.
Qed.

End Sorting.

(** ** [rank_values] *)

Section Ranking.

Context {num : Type} {N : Numeric num}.

Lemma nth_map_seq {A} (f : nat -> A) (n i : nat) (d : A) :
  i < n -> nth i (map f (seq 0 n)) d = f i.
Proof.
  intros Hi.
  rewrite (nth_indep _ d (f 0)) by (rewrite length_map, length_seq; exact Hi).
  rewrite (map_nth f (seq 0 n) 0 i), seq_nth by exact Hi. reflexivity.
Qed.

Lemma rank_values_unfold (arr : list num) (reverse : bool) :
  rank_values arr reverse =
  map (fun i => S (position i
                     (stable_argsort (overtakes arr reverse) (length arr))))
      (seq 0 (length arr)).
Proof. reflexivity. Qed.

Lemma rank_values_length (arr : list num) (reverse : bool) :
  length (rank_values arr reverse) = length arr.
Proof. rewrite rank_values_unfold, length_map, length_seq. reflexivity. Qed.

Lemma rank_values_nth (arr : list num) (reverse : bool) (i : nat) :
  i < length arr ->
  nth i (rank_values arr reverse) 0 =
  S (position i (stable_argsort (overtakes arr reverse) (length arr))).
Proof.
  intros Hi. rewrite rank_values_unfold, nth_map_seq by exact Hi.
  reflexivity.
Qed.

(** The ranks are the numbers 1 .. A, each once. *)
Lemma rank_values_permutation (arr : list num) (reverse : bool) :
  Permutation (rank_values arr reverse) (seq 1 (length arr)).
Proof.
  rewrite rank_values_unfold.
  set (order := stable_argsort (overtakes arr reverse) (length arr)).
  assert (P : Permutation order (seq 0 (length arr)))
    by apply stable_argsort_perm.
  rewrite <- (Permutation_map _ P).
  rewrite <- (map_map (fun i => position i order) S).
  rewrite map_position_nodup.
  - rewrite seq_shift, (Permutation_length P), length_seq. reflexivity.
  - apply (Permutation_NoDup (Permutation_sym P)). apply seq_NoDup.
Qed.

Lemma rank_values_NoDup (arr : list num) (reverse : bool) :
  NoDup (rank_values arr reverse).
Proof.
  apply (Permutation_NoDup (Permutation_sym (rank_values_permutation _ _))).
  apply seq_NoDup.
Qed.

(** Of two alternatives, the earlier keeps the better rank unless the later
    one's score is strictly better. *)
Lemma rank_values_stable (arr : list num) (reverse : bool) (i k : nat) :
  i < k -> k < length arr -> overtakes arr reverse k i = false ->
  nth i (rank_values arr reverse) 0 < nth k (rank_values arr reverse) 0.
Proof.
  intros Hik Hk Hb.
  rewrite !rank_values_nth by lia.
  apply -> Nat.succ_lt_mono.
  apply stable_argsort_stable; assumption.
Qed.

(** Some alternative is ranked 1, if there is an alternative at all. *)
Lemma rank_values_has_rank_1 (arr : list num) (reverse : bool) :
  0 < length arr -> In 1 (rank_values arr reverse).
Proof.
  intros H.
  apply (Permutation_in _ (Permutation_sym (rank_values_permutation _ _))).
  apply in_seq. lia.
Qed.

(** Where [<] is a strict weak order on the scores, so is being strictly
    better, in either direction. *)
Lemma overtakes_asym (arr : list num) (reverse : bool) (x y : nat) :
  strict_weak_order_on arr -> x < length arr -> y < length arr ->
  overtakes arr reverse x y = true -> overtakes arr reverse y x = false.
Proof.
  intros [Ha _] Hx Hy. unfold overtakes. destruct reverse; apply Ha; assumption.
Qed.

Lemma overtakes_negtrans (arr : list num) (reverse : bool) (x y z : nat) :
  strict_weak_order_on arr ->
  x < length arr -> y < length arr -> z < length arr ->
  overtakes arr reverse x z = true ->
  overtakes arr reverse x y = true \/ overtakes arr reverse y z = true.
Proof.
  intros [_ Hn] Hx Hy Hz. unfold overtakes. destruct reverse; intros H.
  - destruct (Hn z y x Hz Hy Hx H); auto.
  - apply Hn; assumption.
Qed.

(** A strictly better score has a strictly smaller rank. *)
Lemma rank_values_better_first (arr : list num) (reverse : bool) (i k : nat) :
  strict_weak_order_on arr ->
  i < length arr -> k < length arr -> overtakes arr reverse i k = true ->
  nth i (rank_values arr reverse) 0 < nth k (rank_values arr reverse) 0.
Proof.
  intros Hswo Hi Hk Hb.
  rewrite !rank_values_nth by lia.
  apply -> Nat.succ_lt_mono.
  apply stable_argsort_better_first; try assumption.
  - intros x y. apply overtakes_asym. exact Hswo.
  - intros x y z. apply overtakes_negtrans. exact Hswo.
Qed.

(** No score is strictly better than the one ranked 1. *)
Lemma rank_values_first_best (arr : list num) (reverse : bool) (i k : nat) :
  strict_weak_order_on arr ->
  i < length arr -> k < length arr ->
  nth i (rank_values arr reverse) 0 = 1 ->
  overtakes arr reverse k i = false.
Proof.
  intros Hswo Hi Hk H1.
  rewrite rank_values_nth in H1 by lia.
  apply (stable_argsort_first_best (overtakes arr reverse) (length arr)
           (fun x y => overtakes_asym arr reverse x y Hswo)
           (fun x y z => overtakes_negtrans arr reverse x y z Hswo)
           i k); [assumption | assumption | lia].
Qed.

(** Tied alternatives occupy consecutive ranks: whatever is ranked between
    two of them ties with them. *)
Lemma rank_values_ties_consecutive (arr : list num) (reverse : bool)
    (i k m : nat) :
  strict_weak_order_on arr ->
  i < length arr -> k < length arr -> m < length arr ->
  tied arr reverse i k ->
  nth i (rank_values arr reverse) 0 < nth m (rank_values arr reverse) 0 ->
  nth m (rank_values arr reverse) 0 < nth k (rank_values arr reverse) 0 ->
  tied arr reverse i m /\ tied arr reverse m k.
Proof.
  intros Hswo Hi Hk Hm [Tik Tki] Him Hmk.
  assert (Hmi : overtakes arr reverse m i = false).
  { destruct (overtakes arr reverse m i) eqn:E; [| reflexivity].
    pose proof (rank_values_better_first arr reverse m i Hswo Hm Hi E). lia. }
  assert (Hkm : overtakes arr reverse k m = false).
  { destruct (overtakes arr reverse k m) eqn:E; [| reflexivity].
    pose proof (rank_values_better_first arr reverse k m Hswo Hk Hm E). lia. }
  assert (Him' : overtakes arr reverse i m = false).
  { destruct (overtakes arr reverse i m) eqn:E; [| reflexivity].
    destruct (overtakes_negtrans arr reverse i k m Hswo Hi Hk Hm E);
      congruence. }
  assert (Hmk' : overtakes arr reverse m k = false).
  { destruct (overtakes arr reverse m k) eqn:E; [| reflexivity].
    destruct (overtakes_negtrans arr reverse m i k Hswo Hm Hi Hk E);
      congruence. }
  repeat split; assumption.
Qed.

End Ranking.

(** ** The order of float64 *)

Section FloatOrder.

Import SpecFloat FloatOps FloatAxioms.

Lemma SFltb_key (f g : spec_float) :
  f <> S754_nan -> g <> S754_nan ->
  (SFltb f g = true <-> key_lt (float_key f) (float_key g)).
Proof.
  intros Hf Hg. unfold SFltb, SFcompare.
  destruct f as [[] | [] | | [] m e]; destruct g as [[] | [] | | [] m' e'];
    try congruence; cbn [float_key key_lt];
    try (split; [discriminate | lia]);
    try (split; [intros _; lia | reflexivity]).
  - destruct (Z.compare_spec e e');
      [change (Pos.compare_cont Eq m m') with (Pos.compare m m');
       destruct (Pos.compare_spec m m') | ..]; cbn;
      split; try discriminate; try reflexivity; try lia.
  - destruct (Z.compare_spec e e');
      [change (Pos.compare_cont Eq m m') with (Pos.compare m m');
       destruct (Pos.compare_spec m m') | ..]; cbn;
      split; try discriminate; try reflexivity; try lia.
Qed.

(** [x == x] fails of NaN alone. *)
Lemma isnan_false_not_nan (x : float) :
  isnan x = false -> Prim2SF x <> S754_nan.
Proof.
  unfold isnan. cbn [eqb float_numeric]. rewrite eqb_spec.
  intros H E. rewrite E in H. discriminate.
Qed.

Lemma float64_ltb_key (x y : float) :
  isnan x = false -> isnan y = false ->
  (ltb x y = true <-> key_lt (float_key (Prim2SF x)) (float_key (Prim2SF y))).
Proof.
  intros Hx Hy. cbn [ltb float_numeric]. rewrite ltb_spec.
  apply SFltb_key; apply isnan_false_not_nan; assumption.
Qed.

(** Floats none of which is NaN are strictly weakly ordered by [<]. *)
Lemma float64_without_nan_ordered (arr : list float) :
  (forall x, In x arr -> isnan x = false) -> strict_weak_order_on arr.
Proof.
  intros Hnan.
  assert (Hn : forall i, i < length arr -> isnan (nth i arr zero) = false)
    by (intros i Hi; apply Hnan, nth_In, Hi).
  split.
  - intros i k Hi Hk H.
    apply (float64_ltb_key _ _ (Hn i Hi) (Hn k Hk)) in H.
    destruct (ltb (nth k arr zero) (nth i arr zero)) eqn:E; [| reflexivity].
    apply (float64_ltb_key _ _ (Hn k Hk) (Hn i Hi)) in E.
    exfalso. revert H E. unfold key_lt.
    destruct (float_key _) as [[a1 a2] a3], (float_key _) as [[b1 b2] b3].
    lia.
  - intros i k m Hi Hk Hm H.
    apply (float64_ltb_key _ _ (Hn i Hi) (Hn m Hm)) in H.
    rewrite (float64_ltb_key _ _ (Hn i Hi) (Hn k Hk)).
    rewrite (float64_ltb_key _ _ (Hn k Hk) (Hn m Hm)).
    revert H. unfold key_lt.
    destruct (float_key _) as [[a1 a2] a3], (float_key _) as [[b1 b2] b3],
      (float_key _) as [[c1 c2] c3].
    lia.
Qed.

End FloatOrder.

(** ** The two rankers *)

Section Rankers.

Context {num : Type} {N : Numeric num}.
Variable log10 : num -> num.
Variable np_dot : nat -> list num -> list num -> num.
Variable np_add_reduce : list num -> num.

Lemma map_seq_ext {A} (f g : nat -> A) (n : nat) :
  (forall j, j < n -> f j = g j) -> map f (seq 0 n) = map g (seq 0 n).
Proof.
  intros H. apply map_ext_in. intros j Hj. apply in_seq in Hj.
  apply H. lia.
Qed.

Lemma flat_map_singleton {A B} (f : A -> B) (l : list A) :
  flat_map (fun a => [f a]) l = map f l.
Proof. induction l; simpl; congruence. Qed.

Lemma nth_map_combine_seq {A B : Type} (h : nat * A -> B) (l : list A)
    (s k : nat) (d : B) (d0 : A) :
  k < length l ->
  nth k (map h (combine (seq s (length l)) l)) d = h (s + k, nth k l d0).
Proof.
  revert s k. induction l as [| a l IH]; simpl; intros s k Hk; [lia |].
  destruct k as [| k]; simpl.
  - rewrite Nat.add_0_r. reflexivity.
  - rewrite IH by lia. f_equal. f_equal. lia.
Qed.

(** The objective codes of an all-MAX matrix, and of one of tags only. *)
Lemma objectives_values_tags (dm : DecisionMatrix num) :
  Forall is_tag (_objectives dm) ->
  objectives_values dm
  = inr (map (fun o => match o with MIN => (-1)%Z | _ => 1%Z end)
             (_objectives dm)).
Proof.
  intros H. unfold objectives_values.
  apply mapM_all_inr. intros o Ho.
  rewrite Forall_forall in H. destruct (H o Ho) as [-> | ->]; reflexivity.
Qed.

Lemma all_MAX_tags (dm : DecisionMatrix num) :
  all_MAX dm -> Forall is_tag (_objectives dm).
Proof. apply Forall_impl. intros o ->. right. reflexivity. Qed.

Lemma code_in_MIN (codes : list Z) :
  code_in (@value num MIN) codes = true <-> In (-1)%Z codes.
Proof.
  unfold code_in. rewrite existsb_exists. simpl. split.
  - intros (z & Hz & E). apply Z.eqb_eq in E. subst. exact Hz.
  - intros H. exists (-1)%Z. split; [exact H | reflexivity].
Qed.

Lemma code_in_MIN_objectives (objs : list Objective) :
  Forall is_tag objs ->
  code_in (@value num MIN)
    (map (fun o => match o with MIN => (-1)%Z | _ => 1%Z end) objs)
  = existsb (Objective_eqb MIN) objs.
Proof.
  unfold code_in. induction 1 as [| o objs Ho _ IH]; [reflexivity |].
  destruct Ho as [-> | ->]; cbn; [reflexivity | exact IH].
Qed.

Lemma existsb_MIN (objs : list Objective) :
  existsb (Objective_eqb MIN) objs = true <-> In MIN objs.
Proof.
  rewrite existsb_exists. split.
  - intros (o & Ho & E). destruct o; try discriminate. exact Ho.
  - intros H. exists MIN. split; [exact H | reflexivity].
Qed.

Lemma all_MAX_no_MIN (dm : DecisionMatrix num) :
  all_MAX dm -> existsb (Objective_eqb MIN) (_objectives dm) = false.
Proof.
  intros H. destruct (existsb _ _) eqn:E; [| reflexivity].
  apply existsb_MIN in E. unfold all_MAX in H. rewrite Forall_forall in H.
  specialize (H _ E). discriminate.
Qed.

Lemma squeeze_1d (a : nat) (d : list num) :
  np_squeeze {| shape := [a]; data := d |}
  = {| shape := squeezed a; data := d |}.
Proof.
  unfold np_squeeze, squeezed. cbn [shape data filter].
  destruct (a =? 1); reflexivity.
Qed.

(** What [np.inner] returns on the matrix of a decision matrix. *)
Lemma np_inner_mtx (dm : DecisionMatrix num) :
  length (_weights dm) = n_criteria dm ->
  np_inner np_dot (mtx dm) (weights dm)
  = inr {| shape := [n_alternatives dm];
           data := map (weighted_sum np_dot dm)
                       (seq 0 (n_alternatives dm)) |}.
Proof.
  intros Hw. unfold np_inner, mtx, to_numpy, weights. simpl.
  fold (n_criteria dm). fold (n_alternatives dm).
  rewrite Hw, Nat.eqb_refl, Nat.mul_1_r. reflexivity.
Qed.

(** What [np.sum(np.multiply(np.log10(mtx), weights), axis=1)] returns. *)
Lemma wpm_score (dm : DecisionMatrix num) :
  length (_weights dm) = n_criteria dm -> rectangular dm ->
  (rank_mtx <- np_multiply (np_log10 log10 (mtx dm)) (weights dm) ;;
   np_sum_axis1 np_add_reduce rank_mtx)
  = inr {| shape := [n_alternatives dm];
           data := map (weighted_log_sum log10 np_add_reduce dm)
                       (seq 0 (n_alternatives dm)) |}.
Proof.
  intros Hw Hr. unfold np_multiply, np_log10, mtx, to_numpy, weights. simpl.
  fold (n_criteria dm). fold (n_alternatives dm).
  rewrite Hw, Nat.eqb_refl. simpl.
  unfold np_sum_axis1. simpl. fold (n_criteria dm). fold (n_alternatives dm).
  rewrite flat_map_singleton. unfold ret. f_equal. f_equal.
  apply map_seq_ext. intros i Hi.
  unfold weighted_log_sum. f_equal.
  apply map_seq_ext. intros j Hj.
  assert (Hlt : i * n_criteria dm + j < length (cells (_data_df dm))).
  { rewrite Hr. nia. }
  rewrite Nat.mul_1_r, Nat.add_0_r.
  rewrite <- (length_map log10) in Hlt.
  rewrite (nth_map_combine_seq _ _ 0 _ zero (log10 zero) Hlt). simpl.
  rewrite map_nth. unfold x_, w_. f_equal. f_equal.
  rewrite Nat.add_comm, Nat.Div0.mod_add.
  apply Nat.mod_small. exact Hj.
Qed.

End Rankers.

Section RankResults.

Context {num : Type} {N : Numeric num}.
Variable log10 : num -> num.
Variable np_dot : nat -> list num -> list num -> num.
Variable np_add_reduce : list num -> num.

Lemma rank_values_ties_by_position (score : list num) :
  ties_by_position score (rank_values score true).
Proof.
  intros i k Hik Hk Hb. apply rank_values_stable; assumption.
Qed.

(** What [rank] does once the objective codes are known to hold no -1. *)
Lemma rank_WeightedSumModel_all_MAX (dm : DecisionMatrix num) :
  counts_invariant dm -> all_MAX dm ->
  let score :=
    map (weighted_sum np_dot dm) (seq 0 (n_alternatives dm)) in
  rank (WeightedSumModel np_dot) dm
  = inr {| method := "WeightedSumModel";
           alternatives := anames dm;
           values := rank_values score true;
           extra := [("score", {| shape := squeezed (n_alternatives dm);
                                  data := score |})] |}.
Proof.
  intros [_ Hw] Hmax score. unfold rank.
  rewrite (objectives_values_tags dm (all_MAX_tags dm Hmax)).
  cbn [bind WeightedSumModel _evaluate_data].
  rewrite code_in_MIN_objectives by (apply all_MAX_tags; exact Hmax).
  rewrite (all_MAX_no_MIN dm Hmax).
  unfold wsm. rewrite (np_inner_mtx np_dot dm Hw).
  cbn [bind ret]. rewrite squeeze_1d. reflexivity.
Qed.

Lemma rank_WeightedProductModel_all_MAX (dm : DecisionMatrix num) :
  counts_invariant dm -> rectangular dm -> all_MAX dm ->
  let score :=
    map (weighted_log_sum log10 np_add_reduce dm)
        (seq 0 (n_alternatives dm)) in
  rank (WeightedProductModel log10 np_add_reduce) dm
  = if existsb (fun x => leb x zero) (cells (_data_df dm)) then
      inl (ValueError WeightedProductModel_cant_operate_with_values_le_0)
    else
      inr {| method := "WeightedProductModel";
             alternatives := anames dm;
             values := rank_values score true;
             extra := [("score", {| shape := [n_alternatives dm];
                                    data := score |})] |}.
Proof.
  intros [_ Hw] Hr Hmax score. unfold rank.
  rewrite (objectives_values_tags dm (all_MAX_tags dm Hmax)).
  cbn [bind WeightedProductModel _evaluate_data].
  rewrite code_in_MIN_objectives by (apply all_MAX_tags; exact Hmax).
  rewrite (all_MAX_no_MIN dm Hmax).
  unfold np_any_le_0. simpl.
  destruct (existsb _ (cells (_data_df dm))); [reflexivity |].
  unfold wpm.
  pose proof (wpm_score log10 np_add_reduce dm Hw Hr) as E.
  destruct (np_multiply _ _) as [e | rank_mtx]; simpl in E |- *;
    [discriminate |].
  rewrite E. reflexivity.
Qed.

(** A matrix with a MIN objective is refused before anything is computed. *)
Lemma rank_with_MIN (dm : DecisionMatrix num) :
  Forall is_tag (_objectives dm) -> In MIN (_objectives dm) ->
  rank (WeightedSumModel np_dot) dm
  = inl (ValueError WeightedSumModel_cant_operate_with_minimize_objective)
  /\ rank (WeightedProductModel log10 np_add_reduce) dm
     = inl (ValueError
              WeightedProductModel_cant_operate_with_minimize_objective).
Proof.
  intros Htag Hmin. unfold rank.
  rewrite (objectives_values_tags dm Htag).
  cbn [bind WeightedSumModel WeightedProductModel _evaluate_data].
  rewrite code_in_MIN_objectives by exact Htag.
  apply existsb_MIN in Hmin. rewrite Hmin. split; reflexivity.
Qed.

(** Whatever else it holds, a matrix with a MIN objective is not ranked. *)
Lemma rank_with_MIN_fails (decision_maker : SKCDecisionMakerABC num)
    (dm : DecisionMatrix num) :
  decision_maker = WeightedSumModel np_dot
  \/ decision_maker = WeightedProductModel log10 np_add_reduce ->
  In MIN (_objectives dm) ->
  exists e, rank decision_maker dm = inl e.
Proof.
  intros Hd Hmin. unfold rank.
  destruct (objectives_values dm) as [e | codes] eqn:E; simpl; [eauto |].
  assert (Hc : In (-1)%Z codes).
  { clear Hd. unfold objectives_values in E. revert codes E.
    induction (_objectives dm) as [| o objs IH]; [contradiction |].
    simpl. intros codes E.
    destruct (int_of_value (value o)) as [e | z] eqn:Eo; simpl in E;
      [discriminate |].
    destruct (mapM _ objs) as [e | zs]; simpl in E; [discriminate |].
    inversion E; subst. destruct Hmin as [-> | Hmin].
    - simpl in Eo. inversion Eo. left. reflexivity.
    - right. apply IH; [exact Hmin | reflexivity]. }
  apply code_in_MIN in Hc.
  destruct Hd as [-> | ->];
    cbn [bind WeightedSumModel WeightedProductModel _evaluate_data];
    rewrite Hc; simpl; eauto.
Qed.

(** The ranks of a result are those of [rank_values] on its scores, one per
    alternative. *)
Lemma rank_values_of_result (decision_maker : SKCDecisionMakerABC num)
    (dm : DecisionMatrix num) (rr : RankResult num) :
  decision_maker = WeightedSumModel np_dot
  \/ decision_maker = WeightedProductModel log10 np_add_reduce ->
  rank decision_maker dm = inr rr ->
  alternatives rr = anames dm
  /\ exists score,
      extra rr = [("score", score)]
      /\ length (data score) = length (anames dm)
      /\ values rr = rank_values (data score) true.
Proof.
  intros Hd E. unfold rank in E.
  apply bind_inr in E. destruct E as (codes & _ & E).
  apply bind_inr in E. destruct E as ([ranks ex] & E & R).
  inversion R; subst rr; clear R.
  destruct Hd as [-> | ->]; simpl in E |- *.
  - destruct (code_in _ _); [discriminate |].
    apply bind_inr in E. destruct E as ([r score] & E & R).
    inversion R; subst; clear R.
    unfold wsm in E. apply bind_inr in E. destruct E as (rm & E & R).
    inversion R; subst; clear R.
    split; [reflexivity |]. exists (np_squeeze rm).
    repeat split; try reflexivity.
    unfold np_inner, mtx, to_numpy in E. simpl in E.
    destruct (_ =? _); [| discriminate]. inversion E; subst.
    unfold np_squeeze, anames. cbn [data].
    rewrite length_map, length_seq. simpl. lia.
  - destruct (code_in _ _); [discriminate |].
    destruct (np_any_le_0 _); [discriminate |].
    apply bind_inr in E. destruct E as ([r score] & E & R).
    inversion R; subst; clear R.
    unfold wpm in E. apply bind_inr in E. destruct E as (rm & E & R).
    apply bind_inr in R. destruct R as (sc & S & R).
    inversion R; subst; clear R.
    split; [reflexivity |]. exists score.
    repeat split; try reflexivity.
    unfold np_multiply, np_log10, mtx, to_numpy in E. simpl in E.
    unfold anames.
    destruct (_ =? _) in E;
      [| destruct (_ =? 1) in E; [| destruct (_ =? 1) in E; [| discriminate]]];
      inversion E; subst; clear E;
      unfold np_sum_axis1 in S; simpl in S; inversion S; subst;
      cbn [data];
      rewrite flat_map_singleton, length_map, length_seq; reflexivity.
Qed.

End RankResults.

(** ** The claims about ranking *)

Section RankingClaims.

Context {num : Type} {N : Numeric num}.
Variable log10 : num -> num.
Variable np_dot : nat -> list num -> list num -> num.
Variable np_add_reduce : list num -> num.

Lemma rank_values_higher_is_better (score : list num) :
  strict_weak_order_on score ->
  higher_is_better score (rank_values score true).
Proof.
  intros Hswo i k Hi Hk Hb. apply rank_values_better_first; assumption.
Qed.

Lemma rank_values_rank_1_is_maximal (score : list num) :
  strict_weak_order_on score ->
  rank_1_is_maximal score (rank_values score true).
Proof.
  intros Hswo i k Hi Hk H1.
  exact (rank_values_first_best score true i k Hswo Hi Hk H1).
Qed.

(** The products of a row with as many weights, pair by pair. *)
Lemma combine_map_seq {A} (f : nat -> A) (w : list num) (s : nat) :
  combine (map f (seq s (length w))) w
  = map (fun j => (f j, nth (j - s) w zero)) (seq s (length w)).
Proof.
  revert s. induction w as [| x w IH]; intros s; [reflexivity |].
  cbn [length seq map combine]. rewrite Nat.sub_diag. cbn [nth]. f_equal.
  rewrite IH. apply map_ext_in. intros j Hj. apply in_seq in Hj.
  replace (j - s) with (S (j - S s)) by lia. reflexivity.
Qed.

Lemma products_of_row (dm : DecisionMatrix num) (i : nat) :
  length (_weights dm) = n_criteria dm ->
  map (fun xw => mul (fst xw) (snd xw)) (combine (x_row dm i) (_weights dm))
  = map (fun j => mul (x_ dm i j) (w_ dm j)) (seq 0 (n_criteria dm)).
Proof.
  intros Hw. unfold x_row. rewrite <- Hw, combine_map_seq, map_map.
  apply map_ext. intros j. cbn [fst snd]. rewrite Nat.sub_0_r. reflexivity.
Qed.



(** C3.  For every decision matrix with at least one MIN objective the rank
    operations of WeightedSumModel and of WeightedProductModel fail; when
    the objectives are the tags MIN and MAX, each fails with its ValueError
    about the minimize objective.  Nothing is coerced or ignored. *)
Theorem rank_refuses_MIN_objective (dm : DecisionMatrix num) :
  In MIN (objectives dm) ->
  (exists e, rank (WeightedSumModel np_dot) dm = inl e)
  /\ (exists e, rank (WeightedProductModel log10 np_add_reduce) dm = inl e)
  /\ (Forall is_tag (objectives dm) ->
      rank (WeightedSumModel np_dot) dm
      = inl (ValueError WeightedSumModel_cant_operate_with_minimize_objective)
      /\ rank (WeightedProductModel log10 np_add_reduce) dm
         = inl (ValueError
                  WeightedProductModel_cant_operate_with_minimize_objective))
  /\ (forall matrix weights codes, In (-1)%Z codes ->
      _evaluate_data (WeightedSumModel np_dot) matrix weights codes
      = inl (ValueError WeightedSumModel_cant_operate_with_minimize_objective)
      /\ _evaluate_data (WeightedProductModel log10 np_add_reduce)
           matrix weights codes
         = inl (ValueError
                  WeightedProductModel_cant_operate_with_minimize_objective)).
Proof.
  unfold objectives. intros Hmin. split; [| split; [| split]].
  - apply (rank_with_MIN_fails log10 np_dot np_add_reduce);
      [left; reflexivity | exact Hmin].
  - apply (rank_with_MIN_fails log10 np_dot np_add_reduce);
      [right; reflexivity | exact Hmin].
  - intros Htag. apply rank_with_MIN; assumption.
  - intros matrix weights codes Hc. apply code_in_MIN in Hc.
    cbn [WeightedSumModel WeightedProductModel _evaluate_data].
    rewrite Hc. split; reflexivity.
Qed.


End RankingClaims.

(** ** Construction *)

Section Construction.

Context {num : Type} {N : Numeric num}.

Lemma construct_from_alias_raises_ValueError (alias : pyobj num) (e : exn num) :
  construct_from_alias alias = inl e ->
  exists bad, e = ValueError (Invalid_criteria_objective bad).
Proof.
  unfold construct_from_alias.
  destruct alias; try discriminate;
    repeat match goal with
           | |- context [if ?b then _ else _] => destruct b
           end;
    try discriminate; intros E; inversion E; eauto.
Qed.

Lemma as_objective_array_raises_ValueError (arr : list (pyobj num))
    (e : exn num) :
  _as_objective_array arr = inl e ->
  exists bad, e = ValueError (Invalid_criteria_objective bad).
Proof.
  intros E. apply mapM_inl_some in E. destruct E as (a & _ & E).
  apply construct_from_alias_raises_ValueError in E. exact E.
Qed.

(** [len(set([c, o, w])) > 1] unless the three counts are one. *)
Lemma three_counts (c o w : nat) :
  (1 <? length (nodup Nat.eq_dec [c; o; w])) = false <-> o = c /\ w = c.
Proof.
  simpl.
  destruct (Nat.eq_dec o c), (Nat.eq_dec w o), (Nat.eq_dec w c);
    try destruct (Nat.eq_dec o w); try destruct (Nat.eq_dec c o);
    try destruct (Nat.eq_dec c w);
    subst; simpl; split; intros H; try reflexivity; try discriminate;
    try (destruct H; congruence); try (split; congruence).
Qed.

Lemma DecisionMatrix_init_spec (data_df : DataFrame num)
    (objectives : list (pyobj num)) (weights : list num) :
  DecisionMatrix_init data_df objectives weights
  = match _as_objective_array objectives with
    | inl e => inl e
    | inr objs =>
        if (length objs =? length (columns data_df))
           && (length weights =? length (columns data_df))
        then inr {| _data_df := data_df; _objectives := objs;
                    _weights := weights |}
        else inl (ValueError
                    (Objectives_and_weights_must_have_the_same_number_of_columns
                       (length (columns data_df)) (length objs)
                       (length weights)))
    end.
Proof.
  unfold DecisionMatrix_init, _as_df, _as_float_array.
  destruct (_as_objective_array objectives) as [e | objs]; [reflexivity |].
  cbn [bind]. unfold __attrs_post_init__. cbn [_data_df _objectives _weights].
  destruct (1 <? _) eqn:E.
  - destruct ((_ =? _) && (_ =? _)) eqn:B; [| reflexivity].
    apply andb_prop in B. destruct B as [B1 B2].
    apply Nat.eqb_eq in B1, B2.
    pose proof (proj2 (three_counts _ _ _) (conj B1 B2)). congruence.
  - apply three_counts in E. destruct E as [-> ->].
    rewrite !Nat.eqb_refl. reflexivity.
Qed.

Lemma DecisionMatrix_init_invariant (data_df : DataFrame num)
    (objectives : list (pyobj num)) (weights : list num)
    (dm : DecisionMatrix num) :
  DecisionMatrix_init data_df objectives weights = inr dm ->
  counts_invariant dm /\ _data_df dm = data_df /\ _weights dm = weights
  /\ _as_objective_array objectives = inr (_objectives dm).
Proof.
  rewrite DecisionMatrix_init_spec.
  destruct (_as_objective_array objectives) as [e | objs]; [discriminate |].
  destruct ((_ =? _) && (_ =? _)) eqn:B; [| discriminate].
  intros E. inversion E; subst; clear E.
  apply andb_prop in B. destruct B as [B1 B2]. apply Nat.eqb_eq in B1, B2.
  unfold counts_invariant, n_criteria. simpl. auto.
Qed.

Lemma DecisionMatrix_init_mismatch (data_df : DataFrame num)
    (objectives : list (pyobj num)) (weights : list num) :
  length objectives <> length (columns data_df)
  \/ length weights <> length (columns data_df) ->
  exists msg,
    DecisionMatrix_init data_df objectives weights = inl (ValueError msg)
    /\ (forall objs, _as_objective_array objectives = inr objs ->
          msg = Objectives_and_weights_must_have_the_same_number_of_columns
                  (length (columns data_df)) (length objectives)
                  (length weights)).
Proof.
  intros H. rewrite DecisionMatrix_init_spec.
  destruct (_as_objective_array objectives) as [e | objs] eqn:E.
  - destruct (as_objective_array_raises_ValueError _ _ E) as (bad & ->).
    eexists. split; [reflexivity |]. intros objs' E'. discriminate.
  - pose proof (mapM_inr_length _ _ _ E) as Hlen. rewrite Hlen.
    destruct ((_ =? _) && (_ =? _)) eqn:B.
    + apply andb_prop in B. destruct B as [B1 B2].
      apply Nat.eqb_eq in B1, B2. destruct H; contradiction.
    + eexists. split; [reflexivity |]. reflexivity.
Qed.

(** What [mkdm] has built when it returns. *)
Lemma mkdm_returns (mtx : ndarray num) (objectives : list (pyobj num))
    (weights : option (list num)) (anames cnames : option (list string))
    (dm : DecisionMatrix num) :
  mkdm mtx objectives weights anames cnames = inr dm ->
  counts_invariant dm
  /\ shape mtx = [n_alternatives dm; n_criteria dm]
  /\ cells (_data_df dm) = data mtx
  /\ _weights dm = weights_or_ones weights (n_criteria dm)
  /\ _as_objective_array objectives = inr (_objectives dm).
Proof.
  unfold mkdm, from_mcda_data. intros E.
  destruct (shape mtx) as [| a [| c [| z s]]]; try discriminate.
  destruct (negb _) eqn:Ea; [discriminate |].
  destruct (negb (_ =? c)) eqn:Ec; [discriminate |].
  apply negb_false_iff, Nat.eqb_eq in Ea, Ec.
  apply DecisionMatrix_init_invariant in E.
  destruct E as (Hinv & Hdf & Hw & Ho).
  unfold n_alternatives, n_criteria. rewrite Hdf. cbn [index columns cells].
  rewrite Ea, Ec. repeat split; try assumption; apply Hinv.
Qed.

(** C5.  [mkdm] raises its ValueError about the dimensions for every matrix
    that has not exactly two; for a two-dimensional matrix it raises a
    ValueError whenever the supplied alternative labels, criteria labels,
    objectives or weights are not as many as the rows or columns (the one
    about the labels for the labels; for the objectives and the weights the
    one about the counts, once every alias resolves).  When it returns, the
    counts invariant holds and the shape is that of the matrix. *)
Theorem mkdm_validates_shape (mtx : ndarray num)
    (objectives : list (pyobj num)) (weights : option (list num))
    (anames cnames : option (list string)) :
  let r := mkdm mtx objectives weights anames cnames in
  (length (shape mtx) <> 2 ->
   r = inl (ValueError (Mtx_must_have_2_dimensions (length (shape mtx)))))
  /\ (forall a c, shape mtx = [a; c] ->
        (disagrees anames a ->
         r = inl (ValueError (Anames_must_have_elements a)))
        /\ (agrees anames a -> disagrees cnames c ->
            r = inl (ValueError (Cnames_must_have_elements c)))
        /\ (length objectives <> c \/ disagrees weights c ->
            exists msg, r = inl (ValueError msg))
        /\ (agrees anames a -> agrees cnames c ->
            length objectives <> c \/ disagrees weights c ->
            forall objs, _as_objective_array objectives = inr objs ->
            r = inl (ValueError
                       (Objectives_and_weights_must_have_the_same_number_of_columns
                          c (length objectives)
                          (length (weights_or_ones weights c))))))
  /\ (forall dm, r = inr dm ->
        counts_invariant dm
        /\ shape mtx = [n_alternatives dm; n_criteria dm]).
Proof.
  intros r. subst r. unfold mkdm, from_mcda_data.
  split; [| split].
  - intros Hdim.
    destruct (shape mtx) as [| a [| c [| z s]]]; simpl in *;
      try reflexivity; lia.
  - intros a c Hs. rewrite Hs.
    set (an := match anames with None => _ | Some l => l end).
    set (cn := match cnames with None => _ | Some l => l end).
    fold (weights_or_ones weights c).
    assert (Han : disagrees anames a -> (length an =? a) = false).
    { intros (l & -> & Hl). apply Nat.eqb_neq. exact Hl. }
    assert (Han' : agrees anames a -> (length an =? a) = true).
    { intros H. apply Nat.eqb_eq. subst an. destruct anames as [l |].
      - apply H. reflexivity.
      - rewrite length_map, length_seq. reflexivity. }
    assert (Hcn : disagrees cnames c -> (length cn =? c) = false).
    { intros (l & -> & Hl). apply Nat.eqb_neq. exact Hl. }
    assert (Hcn' : agrees cnames c -> (length cn =? c) = true).
    { intros H. apply Nat.eqb_eq. subst cn. destruct cnames as [l |].
      - apply H. reflexivity.
      - rewrite length_map, length_seq. reflexivity. }
    assert (Hw : length objectives <> c \/ disagrees weights c ->
                 length objectives <> c
                 \/ length (weights_or_ones weights c) <> c).
    { intros [H | (l & -> & Hl)]; [left | right]; assumption. }
    split; [| split; [| split]].
    + intros H. rewrite (Han H). reflexivity.
    + intros H1 H2. rewrite (Han' H1), (Hcn H2). reflexivity.
    + intros H.
      destruct (length an =? a); simpl; [| eexists; reflexivity].
      destruct (length cn =? c) eqn:Ec; simpl; [| eexists; reflexivity].
      apply Nat.eqb_eq in Ec.
      destruct (DecisionMatrix_init_mismatch
                  {| index := an; columns := cn; cells := data mtx |}
                  objectives (weights_or_ones weights c))
        as (msg & E & _).
      * simpl. rewrite Ec. apply Hw. exact H.
      * eauto.
    + intros H1 H2 H objs Hobjs.
      rewrite (Han' H1), (Hcn' H2). simpl.
      pose proof (Hcn' H2) as Ec. apply Nat.eqb_eq in Ec.
      destruct (DecisionMatrix_init_mismatch
                  {| index := an; columns := cn; cells := data mtx |}
                  objectives (weights_or_ones weights c))
        as (msg & E & Hmsg).
      * simpl. rewrite Ec. apply Hw. exact H.
      * rewrite E, (Hmsg objs Hobjs). simpl. rewrite Ec. reflexivity.
  - intros dm E. apply mkdm_returns in E. tauto.
Qed.

End Construction.

(** ** Objectives *)

Section Objectives.

Context {num : Type} {N : Numeric num}.

(** An alias that is a member of [Objective] already is returned as it is,
    whichever of the six members it is. *)
Lemma construct_from_alias_member (o : Objective) :
  @construct_from_alias num N (PyObjective o) = inr o.
Proof. reflexivity. Qed.

(** Otherwise the alias is lowercased when it is text and looked up, in the
    set for MAX first, then in the set for MIN. *)
Lemma construct_from_alias_lookup (alias : pyobj num) :
  (forall o, alias <> PyObjective o) ->
  construct_from_alias alias
  = if py_in (lower_if_str alias) _MAX_ALIASES_value then inr MAX
    else if py_in (lower_if_str alias) _MIN_ALIASES_value then inr MIN
    else inl (ValueError (Invalid_criteria_objective (lower_if_str alias))).
Proof.
  intros H. destruct alias; try reflexivity.
  exfalso. apply (H o). reflexivity.
Qed.

(** The resolution succeeds exactly on the members of [Objective] and on
    the aliases of the two sets; a failure is the ValueError that names the
    (lowercased) alias. *)
Lemma construct_from_alias_succeeds_iff (alias : pyobj num) :
  ((exists o, construct_from_alias alias = inr o)
   <-> (exists o, alias = PyObjective o)
       \/ py_in (lower_if_str alias) _MAX_ALIASES_value = true
       \/ py_in (lower_if_str alias) _MIN_ALIASES_value = true)
  /\ (forall e, construct_from_alias alias = inl e ->
        e = ValueError (Invalid_criteria_objective (lower_if_str alias))).
Proof.
  destruct alias as [z | x | s | f | elems | o];
    try (rewrite construct_from_alias_lookup by discriminate;
         destruct (py_in _ _MAX_ALIASES_value) eqn:Emax;
         [| destruct (py_in _ _MIN_ALIASES_value) eqn:Emin];
         (split;
          [ split;
            [ intros (o & E); try discriminate; auto
            | intros [(o & E) | [E | E]]; try discriminate; eauto ]
          | intros e E; try discriminate; inversion E; reflexivity ])).
  split.
  - split; intros _; [left |]; eexists; reflexivity.
  - intros e E. discriminate.
Qed.

Lemma existsb_eqb_In (l : list string) (t : string) :
  existsb (fun a => String.eqb a t) l = true <-> In t l.
Proof.
  rewrite existsb_exists. split.
  - intros (a & Ha & E). apply String.eqb_eq in E. subst. exact Ha.
  - intros H. exists t. split; [exact H | apply String.eqb_refl].
Qed.

(** The texts that name MAX, and those that name MIN. *)
Lemma construct_from_alias_text (s : string) :
  (@construct_from_alias num N (PyStr s) = inr MAX
   <-> In (lower s) ["▲"; "max"; "maximize"; "+"; ">"])
  /\ (@construct_from_alias num N (PyStr s) = inr MIN
      <-> In (lower s) ["▼"; "min"; "minimize"; "<"; "-"]).
Proof.
  rewrite construct_from_alias_lookup by discriminate.
  cbn [lower_if_str]. generalize (lower s). intros t.
  change (py_in (PyStr t) (@_MAX_ALIASES_value num))
    with (existsb (fun a => String.eqb a t)
            ["▲"; "max"; "maximize"; "+"; ">"]).
  change (py_in (PyStr t) (@_MIN_ALIASES_value num))
    with (existsb (fun a => String.eqb a t)
            ["▼"; "min"; "minimize"; "<"; "-"]).
  destruct (existsb _ ["▲"; "max"; "maximize"; "+"; ">"]) eqn:Emax.
  - apply existsb_eqb_In in Emax.
    split; split; intros H; try reflexivity; try discriminate;
      [exact Emax |].
    exfalso. cbn [In] in *. intuition congruence.
  - assert (Hmax : ~ In t ["▲"; "max"; "maximize"; "+"; ">"]).
    { intros H. apply existsb_eqb_In in H. congruence. }
    destruct (existsb _ ["▼"; "min"; "minimize"; "<"; "-"]) eqn:Emin.
    + apply existsb_eqb_In in Emin.
      split; split; intros H; try reflexivity; try discriminate;
        [contradiction | exact Emin].
    + assert (Hmin : ~ In t ["▼"; "min"; "minimize"; "<"; "-"]).
      { intros H. apply existsb_eqb_In in H. congruence. }
      split; split; intros H; try discriminate; contradiction.
Qed.

(** C6, at the input where the code departs from it: the two glyphs and the
    two alias sets are members of the enumeration too, and an alias that is
    one of them is returned as the objective, although it is neither MAX
    nor MIN. *)
Theorem construct_from_alias_returns_any_member :
  @construct_from_alias Z Z_numeric (PyObjective _MAX_ALIASES)
  = inr _MAX_ALIASES
  /\ @construct_from_alias Z Z_numeric (PyObjective _MIN_STR) = inr _MIN_STR
  /\ ~ (forall (alias : pyobj Z) (o : Objective),
          construct_from_alias alias = inr o -> o = MAX \/ o = MIN).
Proof.
  split; [reflexivity | split; [reflexivity |]].
  intros H.
  destruct (H (PyObjective _MAX_ALIASES) _MAX_ALIASES eq_refl);
    discriminate.
Qed.

(** [str(objective)] is the name of the member. *)
Lemma str_is_the_member_name :
  __str__ MAX = "MAX" /\ __str__ MIN = "MIN".
Proof. split; reflexivity. Qed.

(** C9.  The display string of an objective, [to_string], is the glyph of
    its direction: "▲" for MAX and "▼" for MIN. *)
Theorem to_string_is_the_glyph :
  @to_string num N MAX = Some "▲" /\ @to_string num N MIN = Some "▼".
Proof. split; reflexivity. Qed.

End Objectives.

(** ** The decision matrix as a value *)

Section Values.

Context {num : Type} {N : Numeric num}.

Lemma forall2b_Forall2 {T : Type} (p : T -> T -> bool) (a b : list T) :
  forall2b p a b = true <-> Forall2 (fun x y => p x y = true) a b.
Proof.
  revert b. induction a as [| x a IH]; intros [| y b]; simpl.
  - split; [constructor | reflexivity].
  - split; [discriminate | intros H; inversion H].
  - split; [discriminate | intros H; inversion H].
  - rewrite andb_true_iff, IH. split.
    + intros [H1 H2]. constructor; assumption.
    + intros H. inversion H; subst. split; assumption.
Qed.

Lemma Forall2_eq_iff {T : Type} (p : T -> T -> bool) (a b : list T) :
  (forall x y, p x y = true <-> x = y) ->
  Forall2 (fun x y => p x y = true) a b <-> a = b.
Proof.
  intros Hp. split.
  - induction 1 as [| x y a b Hxy _ IH]; [reflexivity |].
    apply Hp in Hxy. congruence.
  - intros <-. induction a; constructor; [apply Hp; reflexivity | assumption].
Qed.

Lemma Objective_eqb_eq (a b : Objective) : Objective_eqb a b = true <-> a = b.
Proof. destruct a, b; simpl; split; intros H; congruence. Qed.

Lemma cell_equiv_refl (x : num) : cell_equiv x x = true.
Proof. unfold cell_equiv, isnan. destruct (eqb x x); reflexivity. Qed.

Lemma DataFrame_equals_refl (df : DataFrame num) : DataFrame_equals df df = true.
Proof.
  unfold DataFrame_equals. rewrite !andb_true_iff. repeat split.
  - apply forall2b_Forall2, Forall2_eq_iff; [apply String.eqb_eq | reflexivity].
  - apply forall2b_Forall2, Forall2_eq_iff; [apply String.eqb_eq | reflexivity].
  - apply forall2b_Forall2. induction (cells df); constructor;
      [apply cell_equiv_refl | assumption].
Qed.

Lemma as_objective_array_members (objs : list Objective) :
  @_as_objective_array num N (map PyObjective objs) = inr objs.
Proof.
  unfold _as_objective_array.
  induction objs as [| o objs IH]; simpl; [reflexivity |].
  rewrite IH. reflexivity.
Qed.

Lemma float_cells_map (l : list num) : float_cells (map PyFloat l) = Some l.
Proof. induction l as [| x l IH]; simpl; [| rewrite IH]; reflexivity. Qed.

(** A matrix that satisfies the counts invariant is rebuilt as it is by the
    constructor. *)
Lemma DecisionMatrix_init_members (dm : DecisionMatrix num) :
  counts_invariant dm ->
  DecisionMatrix_init (_data_df dm) (map PyObjective (_objectives dm))
    (_weights dm) = inr dm.
Proof.
  intros [Ho Hw]. rewrite DecisionMatrix_init_spec, as_objective_array_members.
  unfold n_criteria in Ho, Hw. rewrite Ho, Hw, !Nat.eqb_refl. simpl.
  destruct dm; reflexivity.
Qed.

(** The table of a matrix built from a well-formed array is rectangular. *)
Lemma mkdm_rectangular (mtx : ndarray num) (objectives : list (pyobj num))
    (weights : option (list num)) (anames cnames : option (list string))
    (dm : DecisionMatrix num) :
  length (data mtx) = prod (shape mtx) ->
  mkdm mtx objectives weights anames cnames = inr dm ->
  rectangular dm.
Proof.
  intros Hwf E. apply mkdm_returns in E.
  destruct E as (_ & Hs & Hc & _).
  unfold rectangular. rewrite Hc, Hwf, Hs. simpl. lia.
Qed.

(** The three blocks of a summary table, each [c] cells wide. *)
Lemma three_blocks {T : Type} (a b d : list T) (c : nat) :
  length a = c -> length b = c ->
  firstn c (a ++ b ++ d) = a
  /\ firstn c (skipn c (a ++ b ++ d)) = b
  /\ skipn (2 * c) (a ++ b ++ d) = d.
Proof.
  intros <- Hb. repeat split.
  - rewrite firstn_app, firstn_all, Nat.sub_diag. simpl. apply app_nil_r.
  - rewrite skipn_app, skipn_all, Nat.sub_diag. simpl.
    rewrite <- Hb, firstn_app, firstn_all, Nat.sub_diag. simpl.
    apply app_nil_r.
  - rewrite app_assoc.
    replace (2 * length a) with (length (a ++ b))
      by (rewrite length_app; lia).
    rewrite skipn_app, skipn_all, Nat.sub_diag. reflexivity.
Qed.

(** C7.  Whenever [mkdm] returns a decision matrix, [to_dataframe] writes
    its summary table (the objectives, then the weights, above the data),
    and [mkdm] on the parts of that table returns a decision matrix with
    the same numeric matrix, the same weights and the same objectives. *)
Theorem to_dataframe_round_trip (mtx0 : ndarray num)
    (objectives0 : list (pyobj num)) (weights0 : option (list num))
    (anames0 cnames0 : option (list string)) (dm : DecisionMatrix num) :
  mkdm mtx0 objectives0 weights0 anames0 cnames0 = inr dm ->
  exists df dm',
    to_dataframe dm = inr df
    /\ index df = "objectives" :: "weights" :: anames dm
    /\ make_from_dataframe df = Some (inr dm')
    /\ mtx dm' = mtx dm
    /\ weights dm' = weights dm
    /\ objectives dm' = objectives dm.
Proof.
  intros E. apply mkdm_returns in E.
  destruct E as (Hinv & _ & _ & _ & _).
  pose proof Hinv as [Ho Hw]. unfold n_criteria in Ho, Hw.
  unfold to_dataframe, cnames. rewrite Ho, Hw, !Nat.eqb_refl. simpl.
  eexists. exists dm. split; [reflexivity |]. split; [reflexivity |].
  split; [| repeat split].
  unfold make_from_dataframe. cbn [columns cells index].
  set (c := length (columns (_data_df dm))) in *.
  assert (Lo : length (map (@PyObjective num) (_objectives dm)) = c)
    by (rewrite length_map; exact Ho).
  assert (Lw : length (map (@PyFloat num) (_weights dm)) = c)
    by (rewrite length_map; exact Hw).
  destruct (three_blocks _ _ (map (@PyFloat num) (cells (_data_df dm))) c Lo Lw)
    as (B1 & B2 & B3).
  rewrite B1, B2, B3, !float_cells_map. f_equal.
  unfold mkdm, from_mcda_data. cbn [shape data skipn].
  unfold anames, mtx, to_numpy. cbn [length].
  replace (S (S (length (index (_data_df dm)))) - 2)
    with (length (index (_data_df dm))) by lia.
  rewrite !Nat.eqb_refl. cbn [negb].
  clear Lo Lw B1 B2 B3 Ho Hw. subst c.
  destruct dm as [[ix cols cs] objs ws].
  exact (DecisionMatrix_init_members _ Hinv).
Qed.

(** C8, as the code has it.  [__eq__] holds of two decision matrices
    exactly when their labels are equal, their cells are pairwise equal or
    both NaN, their objectives are equal, and their weights are pairwise
    [==]; it is false of every operand that is no decision matrix. *)
Theorem eq_holds_iff_equal_as_compared (self : DecisionMatrix num) :
  (forall other : DecisionMatrix num,
      __eq__ self (Any_DecisionMatrix other) = true
      <-> equal_as_compared self other)
  /\ (forall df, __eq__ self (Any_DataFrame df) = false)
  /\ (forall v, __eq__ self (Any_object v) = false).
Proof.
  split; [| split; reflexivity].
  intros other. unfold __eq__, DataFrame_equals, np_array_equal,
    equal_as_compared.
  rewrite !andb_true_iff, !forall2b_Forall2.
  rewrite !(Forall2_eq_iff String.eqb) by apply String.eqb_eq.
  rewrite (Forall2_eq_iff Objective_eqb) by apply Objective_eqb_eq.
  tauto.
Qed.

(** C10, as the code has it.  For every decision matrix (the counts
    invariant holds of it), [copy] returns a decision matrix with the same
    table, objectives and weights, and leaves the matrix as it was; the
    copy compares equal to the matrix when no weight is NaN. *)
Theorem copy_is_equal_without_nan_weights (dm : DecisionMatrix num) :
  counts_invariant dm ->
  exists c,
    copy dm = inr c
    /\ c = dm
    /\ (Forall (fun w => eqb w w = true) (_weights dm) ->
        __eq__ c (Any_DecisionMatrix dm) = true).
Proof.
  intros Hinv. exists dm. split; [| split].
  - apply DecisionMatrix_init_members. exact Hinv.
  - reflexivity.
  - intros Hw. unfold __eq__, np_array_equal.
    rewrite DataFrame_equals_refl. simpl. apply andb_true_intro. split.
    + apply forall2b_Forall2, Forall2_eq_iff;
        [apply Objective_eqb_eq | reflexivity].
    + apply forall2b_Forall2.
      induction Hw; constructor; assumption.
Qed.

End Values.

(** ** The theorems at sample inputs *)

(** The scores of the float64 samples are strictly weakly ordered: none is
    NaN. *)
Lemma float_wsm_scores_ordered :
  strict_weak_order_on [40; 152.5; 152.5]%float.
Proof.
  apply float64_without_nan_ordered. intros x Hx. simpl in Hx.
  repeat (destruct Hx as [<- | Hx]; [reflexivity |]). contradiction.
Qed.

Lemma float_wpm_scores_ordered :
  strict_weak_order_on [2; 3.25; 3.25]%float.
Proof.
  apply float64_without_nan_ordered. intros x Hx. simpl in Hx.
  repeat (destruct Hx as [<- | Hx]; [reflexivity |]). contradiction.
Qed.



Lemma rank_refuses_sample_with_MIN :
  rank (WeightedSumModel dot_from_left) sample_dm_min
  = inl (ValueError WeightedSumModel_cant_operate_with_minimize_objective)
  /\ rank (WeightedProductModel Zlog10 sum_from_left) sample_dm_min
     = inl (ValueError
              WeightedProductModel_cant_operate_with_minimize_objective).
Proof.
  destruct (rank_refuses_MIN_objective Zlog10 dot_from_left sum_from_left
              sample_dm_min)
    as (_ & _ & H & _).
  - simpl. right. left. reflexivity.
  - apply H. simpl.
    constructor; [right; reflexivity |].
    constructor; [left; reflexivity | constructor].
Defined.


Lemma mkdm_validates_sample :
  mkdm {| shape := [6]; data := data sample_mtx |}
       [PyStr "max"; PyStr "max"] None None None
  = inl (ValueError (Mtx_must_have_2_dimensions 1))
  /\ mkdm sample_mtx [PyStr "max"; PyStr "max"] None (Some ["x"; "y"]) None
     = inl (ValueError (Anames_must_have_elements 3))
  /\ mkdm sample_mtx [PyStr "max"] (Some [2; 1]%Z) None None
     = inl (ValueError
              (Objectives_and_weights_must_have_the_same_number_of_columns
                 2 1 2))
  /\ counts_invariant sample_dm.
Proof.
  split; [| split; [| split]].
  - apply (proj1 (mkdm_validates_shape
                    {| shape := [6]; data := data sample_mtx |}
                    [PyStr "max"; PyStr "max"] None None None)).
    simpl. lia.
  - apply (proj1 (proj2 (mkdm_validates_shape sample_mtx
                           [PyStr "max"; PyStr "max"] None
                           (Some ["x"; "y"]) None)) 3 2 eq_refl).
    exists ["x"; "y"]. split; [reflexivity | simpl; lia].
  - apply (proj2 (proj2 (proj2
             (proj1 (proj2 (mkdm_validates_shape sample_mtx
                              [PyStr "max"] (Some [2; 1]%Z) None None))
                3 2 eq_refl)))
             ltac:(intros l H; discriminate)
             ltac:(intros l H; discriminate)
             ltac:(left; simpl; lia)
             [MAX] eq_refl).
  - apply (proj2 (proj2 (mkdm_validates_shape sample_mtx
                           [PyStr "max"; PyFunc builtin_max]
                           (Some [2; 1]%Z) None None)) sample_dm eq_refl).
Defined.

Lemma to_dataframe_round_trip_on_sample :
  exists df dm',
    to_dataframe sample_dm = inr df
    /\ index df = "objectives" :: "weights" :: anames sample_dm
    /\ make_from_dataframe df = Some (inr dm')
    /\ mtx dm' = mtx sample_dm
    /\ weights dm' = weights sample_dm
    /\ objectives dm' = objectives sample_dm.
Proof.
  apply (to_dataframe_round_trip sample_mtx
           [PyStr "Max"; PyFunc np_max] (Some [2; 1]%Z) None None sample_dm).
  reflexivity.
Defined.

Lemma copy_of_sample_is_equal :
  exists c,
    copy sample_dm = inr c
    /\ c = sample_dm
    /\ __eq__ c (Any_DecisionMatrix sample_dm) = true.
Proof.
  destruct (copy_is_equal_without_nan_weights sample_dm) as (c & E & I & H).
  - split; reflexivity.
  - exists c. split; [exact E | split; [exact I |]].
    apply H. repeat constructor.
Defined.

(** ** Where the code departs from the claims *)

(** C8, as stated, fails where a NaN is involved.  A matrix with a NaN
    cell compares equal to itself although that cell is not [==] to
    itself; a matrix with a NaN weight does not compare equal to itself. *)
Lemma eq_is_not_elementwise_equality :
  ~ (forall a b : DecisionMatrix float,
        __eq__ a (Any_DecisionMatrix b) = true <-> elementwise_equal a b)
  /\ ~ (forall a b : DecisionMatrix float,
          __eq__ a (Any_DecisionMatrix b) = true <-> a = b).
Proof.
  split; intros H.
  - destruct (H nan_cell_dm nan_cell_dm) as [H1 _].
    destruct (H1 eq_refl) as (_ & _ & Hc & _).
    inversion Hc as [| x y l l' E]; subst. vm_compute in E. discriminate.
  - destruct (H nan_weight_dm nan_weight_dm) as [_ H2].
    specialize (H2 eq_refl). vm_compute in H2. discriminate.
Qed.

(** C10, as stated, fails for a matrix with a NaN weight: its copy is the
    same matrix and yet does not compare equal to it. *)
Lemma copy_with_nan_weight_is_not_equal :
  copy nan_weight_dm = inr nan_weight_dm
  /\ __eq__ nan_weight_dm (Any_DecisionMatrix nan_weight_dm) = false
  /\ ~ (forall dm : DecisionMatrix float,
          counts_invariant dm ->
          exists c, copy dm = inr c
                    /\ __eq__ c (Any_DecisionMatrix dm) = true).
Proof.
  split; [reflexivity | split; [reflexivity |]].
  intros H. destruct (H nan_weight_dm) as (c & E & Q).
  - split; reflexivity.
  - vm_compute in E. inversion E; subst. vm_compute in Q. discriminate.
Qed.



(* ===================================================================== *)
(** * Further properties of the code *)

(** ** Aliases and objective codes *)

Section Aliases.

Context {num : Type} {N : Numeric num}.

Lemma lower_ascii_idempotent (c : ascii) :
  lower_ascii (lower_ascii c) = lower_ascii c.
Proof. destruct c as [[] [] [] [] [] [] [] []]; reflexivity. Qed.

Lemma lower_idempotent (s : string) : lower (lower s) = lower s.
Proof.
  induction s as [| c s IH]; simpl; [reflexivity |].
  rewrite lower_ascii_idempotent, IH. reflexivity.
Qed.

(** X1.  Each of the two tags is found again from any of its three
    renderings: its glyph ([to_string]), its value ([.value]) and its name
    ([str]). *)
Theorem construct_from_alias_inverts_renderings (o : Objective) :
  is_tag o ->
  (exists glyph, to_string o = Some glyph
                 /\ @construct_from_alias num N (PyStr glyph) = inr o)
  /\ @construct_from_alias num N (value o) = inr o
  /\ @construct_from_alias num N (PyStr (__str__ o)) = inr o.
Proof.
  intros [-> | ->]; (split; [eexists; split; reflexivity |]);
    split; reflexivity.
Qed.

Lemma lower_isascii (s : string) : isascii (lower s) = isascii s.
Proof.
  induction s as [| c s IH]; [reflexivity |].
  cbn [lower isascii]. rewrite IH. f_equal.
  destruct c as [[] [] [] [] [] [] [] []]; reflexivity.
Qed.

(** X2.  The resolution of an ASCII text does not depend on the case of its
    letters: the text and its lowercase form, itself ASCII, resolve alike,
    and so do two ASCII texts with the same lowercase form, failure and
    its message included. *)
Theorem construct_from_alias_ignores_case (s : string) :
  isascii s = true ->
  isascii (lower s) = true
  /\ @construct_from_alias num N (PyStr (lower s))
     = @construct_from_alias num N (PyStr s)
  /\ forall t, isascii t = true -> lower t = lower s ->
       @construct_from_alias num N (PyStr t)
       = @construct_from_alias num N (PyStr s).
Proof.
  intros Hs. split; [rewrite lower_isascii; exact Hs |]. split.
  - rewrite !construct_from_alias_lookup by discriminate.
    cbn [lower_if_str]. rewrite lower_idempotent. reflexivity.
  - intros t _ E.
    rewrite !construct_from_alias_lookup by discriminate.
    cbn [lower_if_str]. rewrite E. reflexivity.
Qed.

(** No alias other than a float is in both sets. *)
Lemma alias_sets_disjoint (alias : pyobj num) :
  (forall x, alias <> PyFloat x) ->
  py_in (lower_if_str alias) _MAX_ALIASES_value = true ->
  py_in (lower_if_str alias) _MIN_ALIASES_value = false.
Proof.
  intros Hf. destruct alias as [z | x | s | f | elems | o].
  - cbn [lower_if_str py_in existsb _MAX_ALIASES_value _MIN_ALIASES_value
         py_eq orb].
    rewrite !orb_false_r. intros H. apply Z.eqb_eq in H. subst z.
    reflexivity.
  - exfalso. apply (Hf x). reflexivity.
  - cbn [lower_if_str]. generalize (lower s). intros t.
    change (py_in (PyStr t) (@_MAX_ALIASES_value num))
      with (existsb (fun a => String.eqb a t)
              ["▲"; "max"; "maximize"; "+"; ">"]).
    change (py_in (PyStr t) (@_MIN_ALIASES_value num))
      with (existsb (fun a => String.eqb a t)
              ["▼"; "min"; "minimize"; "<"; "-"]).
    intros H. apply existsb_eqb_In in H.
    destruct (existsb _ ["▼"; "min"; "minimize"; "<"; "-"]) eqn:E;
      [| reflexivity].
    apply existsb_eqb_In in E. exfalso. cbn [In] in *. intuition congruence.
  - destruct f; cbn; try reflexivity; discriminate.
  - cbn. discriminate.
  - cbn. discriminate.
Qed.

(** X3.  Looking into the set for MAX first never hides an alias of MIN:
    an alias that is neither a float nor a member of [Objective] resolves
    to MIN exactly when it is in the set for MIN, and to MAX exactly when
    it is in the set for MAX. *)
Theorem lookup_order_never_matters (alias : pyobj num) :
  (forall x, alias <> PyFloat x) ->
  (forall o, alias <> PyObjective o) ->
  (construct_from_alias alias = inr MIN
   <-> py_in (lower_if_str alias) _MIN_ALIASES_value = true)
  /\ (construct_from_alias alias = inr MAX
      <-> py_in (lower_if_str alias) _MAX_ALIASES_value = true).
Proof.
  intros Hf Ho. rewrite construct_from_alias_lookup by exact Ho.
  pose proof (alias_sets_disjoint alias Hf) as D.
  destruct (py_in (lower_if_str alias) _MAX_ALIASES_value).
  - rewrite (D eq_refl). split; split; intros H;
      try discriminate; reflexivity.
  - destruct (py_in (lower_if_str alias) _MIN_ALIASES_value);
      split; split; intros H; try discriminate; reflexivity.
Qed.

Lemma int_of_value_tag (o : Objective) (z : Z) :
  int_of_value (@value num o) = inr z -> is_tag o /\ z = code_of_tag o.
Proof.
  destruct o; simpl; intros E; try discriminate; inversion E; subst;
    split; try reflexivity; [left | right]; reflexivity.
Qed.

Lemma mapM_inr_Forall2 {A B : Type} (f : A -> result num B) (l : list A)
    (bs : list B) :
  mapM f l = inr bs -> Forall2 (fun a b => f a = inr b) l bs.
Proof.
  revert bs. induction l as [| a l IH]; simpl; intros bs E.
  - inversion E. constructor.
  - destruct (f a) as [e | b] eqn:Fa; simpl in E; [discriminate |].
    destruct (mapM f l) as [e | bs']; simpl in E; [discriminate |].
    inversion E; subst. constructor; [exact Fa | apply IH; reflexivity].
Qed.


Lemma construct_from_alias_tag (alias : pyobj num) (o : Objective) :
  (forall o', alias = PyObjective o' -> is_tag o') ->
  construct_from_alias alias = inr o -> is_tag o.
Proof.
  intros H E. destruct alias as [z | x | s | f | elems | o'];
    try (rewrite construct_from_alias_lookup in E by discriminate;
         destruct (py_in _ _MAX_ALIASES_value);
         [| destruct (py_in _ _MIN_ALIASES_value)];
         inversion E; subst; [right | left]; reflexivity).
  simpl in E. inversion E; subst. apply H. reflexivity.
Qed.

Lemma as_objective_array_tags (l : list (pyobj num)) (objs : list Objective) :
  (forall alias o, In alias l -> alias = PyObjective o -> is_tag o) ->
  _as_objective_array l = inr objs -> Forall is_tag objs.
Proof.
  intros Hplain E. unfold _as_objective_array in E.
  apply mapM_inr_Forall2 in E.
  induction E as [| a o l objs Ha _ IH]; constructor.
  - apply (construct_from_alias_tag a); [| exact Ha].
    intros o' ->. apply (Hplain (PyObjective o') o'); [left |]; reflexivity.
  - apply IH. intros alias o' Hin. apply Hplain. right. exact Hin.
Qed.

(** X5.  A matrix that [mkdm] builds from aliases none of which is an
    auxiliary member of the enumeration holds the tags MIN and MAX only,
    and its objective codes exist: one 1 or -1 for every criterion. *)
Theorem mkdm_from_plain_aliases_has_codes (mtx0 : ndarray num)
    (objectives0 : list (pyobj num)) (weights0 : option (list num))
    (anames0 cnames0 : option (list string)) (dm : DecisionMatrix num) :
  (forall alias o, In alias objectives0 -> alias = PyObjective o -> is_tag o) ->
  mkdm mtx0 objectives0 weights0 anames0 cnames0 = inr dm ->
  Forall is_tag (objectives dm)
  /\ exists codes,
      objectives_values dm = inr codes
      /\ length codes = n_criteria dm
      /\ Forall (fun z => z = 1%Z \/ z = (-1)%Z) codes.
Proof.
  intros Hplain E. apply mkdm_returns in E.
  destruct E as ([Hlen _] & _ & _ & _ & Ho).
  assert (Ht : Forall is_tag (_objectives dm))
    by (apply (as_objective_array_tags objectives0); assumption).
  split; [exact Ht |].
  eexists. split; [apply objectives_values_tags; exact Ht |].
  split; [rewrite length_map; exact Hlen |].
  apply Forall_map. revert Ht. apply Forall_impl.
  intros o [-> | ->]; auto.
Qed.

End Aliases.

(** ** What [mkdm] and [copy] build *)

Section Built.

Context {num : Type} {N : Numeric num}.

Lemma to_uint_nonnil (n : nat) : Nat.to_uint n <> Decimal.Nil.
Proof.
  intros H. pose proof (DecimalNat.Unsigned.of_to n) as E.
  rewrite H in E. simpl in E. subst n. vm_compute in H. discriminate.
Qed.

Lemma str_of_nat_inj (n m : nat) : str_of_nat n = str_of_nat m -> n = m.
Proof.
  unfold str_of_nat. intros H.
  apply (f_equal NilZero.uint_of_string) in H.
  rewrite !NilZero.usu in H by apply to_uint_nonnil.
  inversion H. apply DecimalNat.Unsigned.to_uint_inj. assumption.
Qed.

Lemma default_labels_NoDup (prefix : string) (n : nat) :
  NoDup (map (fun idx => (prefix ++ str_of_nat idx)%string) (seq 0 n)).
Proof.
  apply Finite.Injective_map_NoDup; [| apply seq_NoDup].
  intros i j H. apply str_of_nat_inj.
  induction prefix as [| c p IH]; simpl in H; [exact H |].
  inversion H. apply IH. assumption.
Qed.

(** What [mkdm] makes of its arguments when it returns. *)
Lemma mkdm_labels (mtx0 : ndarray num) (objectives0 : list (pyobj num))
    (weights0 : option (list num)) (anames0 cnames0 : option (list string))
    (dm : DecisionMatrix num) :
  mkdm mtx0 objectives0 weights0 anames0 cnames0 = inr dm ->
  anames dm
  = match anames0 with
    | None => map (fun idx => ("A" ++ str_of_nat idx)%string)
                (seq 0 (n_alternatives dm))
    | Some l => l
    end
  /\ cnames dm
     = match cnames0 with
       | None => map (fun idx => ("C" ++ str_of_nat idx)%string)
                   (seq 0 (n_criteria dm))
       | Some l => l
       end.
Proof.
  intros E. pose proof (mkdm_returns _ _ _ _ _ _ E) as (_ & Hs & _).
  unfold mkdm, from_mcda_data in E. rewrite Hs in E.
  destruct (negb _) in E; [discriminate |].
  destruct (negb _) in E; [discriminate |].
  apply DecisionMatrix_init_invariant in E.
  destruct E as (_ & Hdf & _).
  unfold anames, cnames. rewrite Hdf. split; reflexivity.
Qed.

(** X6.  What [mkdm] fills in for what is omitted: the labels A0, A1, ...
    one per row, and C0, C1, ... one per column, no two of them the same,
    and the weight 1 for every criterion. *)
Theorem mkdm_defaults (mtx0 : ndarray num) (objectives0 : list (pyobj num))
    (weights0 : option (list num)) (anames0 cnames0 : option (list string))
    (dm : DecisionMatrix num) :
  mkdm mtx0 objectives0 weights0 anames0 cnames0 = inr dm ->
  (anames0 = None ->
   anames dm = map (fun idx => ("A" ++ str_of_nat idx)%string)
                 (seq 0 (n_alternatives dm))
   /\ NoDup (anames dm))
  /\ (cnames0 = None ->
      cnames dm = map (fun idx => ("C" ++ str_of_nat idx)%string)
                    (seq 0 (n_criteria dm))
      /\ NoDup (cnames dm))
  /\ (weights0 = None -> weights dm = repeat one (n_criteria dm)).
Proof.
  intros E. pose proof (mkdm_labels _ _ _ _ _ _ E) as [Ha Hc].
  apply mkdm_returns in E. destruct E as (_ & _ & _ & Hw & _).
  split; [| split].
  - intros ->. rewrite Ha. split; [reflexivity | apply default_labels_NoDup].
  - intros ->. rewrite Hc. split; [reflexivity | apply default_labels_NoDup].
  - intros ->. exact Hw.
Qed.

(** X7.  [mkdm] keeps what it is given: the matrix read back through
    [mtx] is the array it was handed, shape and data, and the supplied
    labels and weights are read back unchanged. *)
Theorem mkdm_keeps_its_arguments (mtx0 : ndarray num)
    (objectives0 : list (pyobj num)) (weights0 : option (list num))
    (anames0 cnames0 : option (list string)) (dm : DecisionMatrix num) :
  mkdm mtx0 objectives0 weights0 anames0 cnames0 = inr dm ->
  mtx dm = mtx0
  /\ (forall l, anames0 = Some l -> anames dm = l)
  /\ (forall l, cnames0 = Some l -> cnames dm = l)
  /\ (forall w, weights0 = Some w -> weights dm = w).
Proof.
  intros E. pose proof (mkdm_labels _ _ _ _ _ _ E) as [Ha Hc].
  apply mkdm_returns in E. destruct E as (_ & Hs & Hd & Hw & _).
  split; [| split; [| split]].
  - unfold mtx, to_numpy.
    fold (n_alternatives dm). fold (n_criteria dm).
    rewrite <- Hs, Hd. destruct mtx0; reflexivity.
  - intros l ->. exact Ha.
  - intros l ->. exact Hc.
  - intros w ->. exact Hw.
Qed.

Lemma mapM_first_failure {A B : Type} (f : A -> result num B)
    (l1 : list A) (a : A) (l2 : list A) (e : exn num) :
  (forall x, In x l1 -> exists b, f x = inr b) ->
  f a = inl e -> mapM f (l1 ++ a :: l2) = inl e.
Proof.
  intros Hl1 Ha. induction l1 as [| x l1 IH]; simpl.
  - rewrite Ha. reflexivity.
  - destruct (Hl1 x (or_introl eq_refl)) as (b & ->). simpl.
    rewrite IH by (intros; apply Hl1; right; assumption). reflexivity.
Qed.

(** X8.  When the matrix has two dimensions and the labels agree with it,
    the first alias that does not resolve decides: [mkdm] raises the
    ValueError that names it (in lowercase if it is a text, which is to be
    an ASCII text), whatever the later aliases are and whether or not
    the counts agree. *)
Theorem mkdm_reports_the_first_bad_alias (mtx0 : ndarray num)
    (resolved : list (pyobj num)) (bad : pyobj num)
    (later : list (pyobj num)) (weights0 : option (list num))
    (anames0 cnames0 : option (list string)) (a c : nat) :
  shape mtx0 = [a; c] -> agrees anames0 a -> agrees cnames0 c ->
  (forall alias, In alias resolved ->
     exists o, construct_from_alias alias = inr o) ->
  (forall o, construct_from_alias bad <> inr o) ->
  ascii_alias bad ->
  mkdm mtx0 (resolved ++ bad :: later) weights0 anames0 cnames0
  = inl (ValueError (Invalid_criteria_objective (lower_if_str bad))).
Proof.
  intros Hs Ha Hc Hres Hbad _. unfold mkdm, from_mcda_data. rewrite Hs.
  assert (Ea : (length match anames0 with
                       | None => map (fun idx => ("A" ++ str_of_nat idx)%string)
                                   (seq 0 a)
                       | Some l => l
                       end =? a) = true).
  { apply Nat.eqb_eq. destruct anames0 as [l |].
    - apply Ha. reflexivity.
    - rewrite length_map, length_seq. reflexivity. }
  assert (Ec : (length match cnames0 with
                       | None => map (fun idx => ("C" ++ str_of_nat idx)%string)
                                   (seq 0 c)
                       | Some l => l
                       end =? c) = true).
  { apply Nat.eqb_eq. destruct cnames0 as [l |].
    - apply Hc. reflexivity.
    - rewrite length_map, length_seq. reflexivity. }
  rewrite Ea, Ec. cbn [negb].
  rewrite DecisionMatrix_init_spec. unfold _as_objective_array.
  rewrite (mapM_first_failure construct_from_alias resolved bad later
             (ValueError (Invalid_criteria_objective (lower_if_str bad))));
    [reflexivity | exact Hres |].
  destruct (construct_from_alias bad) as [e | o] eqn:E.
  - destruct (construct_from_alias_succeeds_iff bad) as [_ He].
    rewrite (He e E). reflexivity.
  - exfalso. apply (Hbad o). reflexivity.
Qed.

(** X9.  [copy] returns exactly for the matrices that satisfy the counts
    invariant, and what it returns has the contents of the matrix and
    satisfies the invariant; on any other it raises the ValueError about
    the counts. *)
Theorem copy_returns_iff_invariant (dm : DecisionMatrix num) :
  (counts_invariant dm -> copy dm = inr dm)
  /\ (forall c, copy dm = inr c -> c = dm /\ counts_invariant c)
  /\ (~ counts_invariant dm ->
      copy dm
      = inl (ValueError
               (Objectives_and_weights_must_have_the_same_number_of_columns
                  (n_criteria dm) (length (objectives dm))
                  (length (weights dm))))).
Proof.
  unfold copy. split; [| split].
  - apply DecisionMatrix_init_members.
  - intros c E. apply DecisionMatrix_init_invariant in E.
    destruct E as (Hinv & Hdf & Hw & Ho).
    rewrite as_objective_array_members in Ho. inversion Ho as [Ho'].
    split; [| exact Hinv].
    destruct c, dm; simpl in *; congruence.
  - intros Hn. rewrite DecisionMatrix_init_spec, as_objective_array_members.
    destruct ((_ =? _) && (_ =? _)) eqn:B; [| reflexivity].
    exfalso. apply Hn. apply andb_prop in B. destruct B as [B1 B2].
    apply Nat.eqb_eq in B1, B2. split; assumption.
Qed.

End Built.

(** ** Equality and the summary table *)

Section Comparison.

Context {num : Type} {N : Numeric num}.

Lemma forall2b_diag {T : Type} (p : T -> T -> bool) (l : list T) :
  forall2b p l l = true <-> Forall (fun x => p x x = true) l.
Proof.
  induction l as [| x l IH]; simpl.
  - split; [constructor | reflexivity].
  - rewrite andb_true_iff, IH. split.
    + intros [H1 H2]. constructor; assumption.
    + intros H. inversion H; subst. split; assumption.
Qed.

Lemma forall2b_sym {T : Type} (p : T -> T -> bool) (a b : list T) :
  (forall x y, p x y = p y x) -> forall2b p a b = forall2b p b a.
Proof.
  intros Hp. revert b. induction a as [| x a IH]; intros [| y b]; simpl;
    try reflexivity.
  rewrite (Hp x y), IH. reflexivity.
Qed.

(** X10.  A decision matrix compares equal to itself exactly when none of
    its weights is NaN (whatever its cells are). *)
Theorem eq_reflexive_iff_no_nan_weight (dm : DecisionMatrix num) :
  __eq__ dm (Any_DecisionMatrix dm) = true
  <-> Forall (fun w => isnan w = false) (weights dm).
Proof.
  unfold __eq__, np_array_equal, weights.
  rewrite DataFrame_equals_refl.
  assert (Ho : forall2b Objective_eqb (_objectives dm) (_objectives dm) = true).
  { apply forall2b_diag. apply Forall_forall. intros o _.
    apply Objective_eqb_eq. reflexivity. }
  rewrite Ho. cbn [andb]. rewrite forall2b_diag.
  split; apply Forall_impl; intros w; unfold isnan;
    destruct (eqb w w); simpl; congruence.
Qed.

(** X11.  Where [==] on numbers is symmetric, so are [==] and [!=] on
    decision matrices. *)
Theorem eq_symmetric (a b : DecisionMatrix num) :
  (forall x y : num, eqb x y = eqb y x) ->
  __eq__ a (Any_DecisionMatrix b) = __eq__ b (Any_DecisionMatrix a)
  /\ __ne__ a (Any_DecisionMatrix b) = __ne__ b (Any_DecisionMatrix a).
Proof.
  intros Hsym.
  assert (E : __eq__ a (Any_DecisionMatrix b)
              = __eq__ b (Any_DecisionMatrix a)).
  { unfold __eq__, DataFrame_equals, np_array_equal.
    rewrite (forall2b_sym String.eqb (index (_data_df a)))
      by apply String.eqb_sym.
    rewrite (forall2b_sym String.eqb (columns (_data_df a)))
      by apply String.eqb_sym.
    rewrite (forall2b_sym cell_equiv (cells (_data_df a))).
    2:{ intros x y. unfold cell_equiv.
        rewrite (Hsym x y), (andb_comm (isnan x)). reflexivity. }
    rewrite (forall2b_sym Objective_eqb (_objectives a))
      by (intros [] []; reflexivity).
    rewrite (forall2b_sym eqb (_weights a)) by exact Hsym.
    reflexivity. }
  split; [exact E |]. unfold __ne__. rewrite E. reflexivity.
Qed.

(** X12.  [to_dataframe] returns exactly for the matrices that satisfy the
    counts invariant.  Its table has two rows more than the matrix has
    alternatives, the columns of the matrix, and the cells of the two rows
    and of the matrix; it is rectangular when the matrix is. *)
Theorem to_dataframe_layout (dm : DecisionMatrix num) :
  ((exists df, to_dataframe dm = inr df) <-> counts_invariant dm)
  /\ (forall df, to_dataframe dm = inr df ->
        length (index df) = n_alternatives dm + 2
        /\ columns df = cnames dm
        /\ length (cells df)
           = 2 * n_criteria dm + length (data (mtx dm))
        /\ (rectangular dm ->
            length (cells df) = length (index df) * length (columns df))).
Proof.
  unfold to_dataframe, cnames, anames, counts_invariant, rectangular,
    n_criteria, n_alternatives.
  destruct ((_ =? _) && (_ =? _)) eqn:B.
  - apply andb_prop in B. destruct B as [B1 B2].
    apply Nat.eqb_eq in B1, B2.
    split.
    + split; [intros _; split; congruence | intros _; eexists; reflexivity].
    + intros df E. inversion E; subst; clear E. cbn [index columns cells].
      rewrite !length_app, !length_map. simpl.
      repeat split; lia.
  - split.
    + split; [intros (df & E); discriminate |].
      intros [H1 H2]. rewrite H1, H2, !Nat.eqb_refl in B. discriminate.
    + intros df E. discriminate.
Qed.

End Comparison.

(** ** The two scoring functions on arrays *)

Section Scoring.

Context {num : Type} {N : Numeric num}.
Variable log10 : num -> num.
Variable np_dot : nat -> list num -> list num -> num.
Variable np_add_reduce : list num -> num.

(** The inner products of the rows of an [a] by [c] array. *)
Lemma wsm_2d (a c : nat) (d w : list num) :
  c = length w ->
  wsm np_dot {| shape := [a; c]; data := d |} w
  = let score :=
      map (fun i =>
             np_dot i (map (fun j => nth (i * c + j) d zero) (seq 0 c)) w)
          (seq 0 a) in
    inr (rank_values score true, {| shape := squeezed a; data := score |}).
Proof.
  intros ->. unfold wsm, np_inner. simpl.
  rewrite Nat.eqb_refl, Nat.mul_1_r. cbn [bind ret].
  rewrite squeeze_1d. reflexivity.
Qed.

Lemma sum_axis1_2d (a c : nat) (d : list num) :
  np_sum_axis1 np_add_reduce {| shape := [a; c]; data := d |}
  = inr {| shape := [a];
           data := map (fun i =>
                          np_add_reduce
                            (map (fun j => nth (i * c + j) d zero) (seq 0 c)))
                       (seq 0 a) |}.
Proof.
  unfold np_sum_axis1. simpl. rewrite flat_map_singleton.
  unfold ret. f_equal. f_equal. apply map_ext. intros i. f_equal.
  apply map_ext. intros j. rewrite Nat.mul_1_r, Nat.add_0_r. reflexivity.
Qed.

(** X14.  [wsm] validates nothing but what numpy does: on an [a] by [c]
    array it raises numpy's ValueError exactly when the weights are not
    [c]; otherwise it returns one score per row, the inner product that
    numpy makes of the row and the weights, in an array of shape [(a,)]
    (zero-dimensional when [a] is 1), with the ranks of the scores. *)
Theorem wsm_needs_one_weight_per_column (matrix : ndarray num)
    (weights0 : list num) (a c : nat) :
  shape matrix = [a; c] -> length (data matrix) = a * c ->
  (c <> length weights0 ->
   wsm np_dot matrix weights0 = inl (ValueError Shapes_not_aligned))
  /\ (c = length weights0 ->
      let score :=
        map (fun i =>
               np_dot i
                 (map (fun j => nth (i * c + j) (data matrix) zero)
                      (seq 0 c))
                 weights0)
            (seq 0 a) in
      wsm np_dot matrix weights0
      = inr (rank_values score true,
             {| shape := if a =? 1 then [] else [a]; data := score |})).
Proof.
  intros Hs _. destruct matrix as [sh d]. simpl in Hs. subst sh. split.
  - intros Hc. unfold wsm, np_inner. simpl.
    apply Nat.eqb_neq in Hc. rewrite Hc. reflexivity.
  - intros Hc. rewrite (wsm_2d a c d _ Hc). reflexivity.
Qed.

(** X15.  Where [wsm] refuses a single weight for several criteria, [wpm]
    does not: numpy broadcasts the weight, every logarithm of a row is
    multiplied by it, and the score of the row is the sum that numpy makes
    of these products, in an array of shape [(a,)]. *)
Theorem wpm_broadcasts_a_single_weight (matrix : ndarray num) (w : num)
    (a c : nat) :
  shape matrix = [a; c] -> length (data matrix) = a * c -> c <> 1 ->
  wsm np_dot matrix [w] = inl (ValueError Shapes_not_aligned)
  /\ let score :=
       map (fun i =>
              np_add_reduce
                (map (fun j =>
                        mul (log10 (nth (i * c + j) (data matrix) zero)) w)
                     (seq 0 c)))
           (seq 0 a) in
     wpm log10 np_add_reduce matrix [w]
     = inr (rank_values score true, {| shape := [a]; data := score |}).
Proof.
  intros Hs Hd Hc. destruct matrix as [sh d]. simpl in Hs, Hd. subst sh.
  split.
  - unfold wsm, np_inner. simpl. apply Nat.eqb_neq in Hc. rewrite Hc.
    reflexivity.
  - unfold wpm, np_log10, np_multiply. cbn [shape data rev app length].
    apply Nat.eqb_neq in Hc. rewrite Hc. cbn [Nat.eqb bind ret].
    rewrite sum_axis1_2d. cbn [bind ret data]. cbv zeta. unfold ret.
    match goal with
    | |- inr (rank_values ?l true, {| shape := _; data := ?l |})
         = inr (rank_values ?l' true, _) =>
        cut (l = l'); [intros ->; reflexivity |]
    end.
    apply (map_seq_ext _ _ a). intros i Hi. f_equal.
    apply (map_seq_ext _ _ c). intros j Hj. cbn [nth data].
    rewrite map_map.
    rewrite (nth_indep _ zero (mul (log10 zero) w))
      by (rewrite length_map, Hd; nia).
    rewrite (map_nth (fun x => mul (log10 x) w)). reflexivity.
Qed.

End Scoring.

(** ** The labels of the criteria in a plot *)

Section Labels.

Context {num : Type} {N : Numeric num}.

Lemma string_length_append (s t : string) :
  String.length (s ++ t) = String.length s + String.length t.
Proof. induction s as [| c s IH]; simpl; [| rewrite IH]; reflexivity. Qed.

Lemma append_inj_prefix (s s' t t' : string) :
  String.length s = String.length s' ->
  (s ++ t)%string = (s' ++ t')%string -> s = s'.
Proof.
  revert s'. induction s as [| c s IH]; intros [| c' s']; simpl;
    try discriminate; [reflexivity |].
  intros Hl E. inversion E; subst. f_equal. apply IH; [lia | assumption].
Qed.

Lemma label_of_inj (c c' : string) (o o' : Objective) :
  is_tag o -> is_tag o' -> label_of c o = label_of c' o' -> c = c'.
Proof.
  intros Ho Ho' E. unfold label_of in E.
  eapply append_inj_prefix; [| exact E].
  apply (f_equal String.length) in E.
  rewrite !string_length_append in E.
  destruct Ho as [-> | ->], Ho' as [-> | ->]; simpl in E; lia.
Qed.

Lemma labels_NoDup (cs : list string) (os : list Objective) :
  NoDup cs -> Forall is_tag os ->
  NoDup (map (fun co => label_of (fst co) (snd co)) (combine cs os)).
Proof.
  intros Hcs. revert os. induction Hcs as [| c cs Hc _ IH]; intros os Hos.
  - constructor.
  - destruct os as [| o os]; [constructor |]. simpl.
    inversion Hos as [| ? ? Ho Hos']; subst. constructor; [| apply IH; exact Hos'].
    intros Hin. apply in_map_iff in Hin.
    destruct Hin as ([c' o'] & E & Hin). simpl in E.
    apply Hc. rewrite (label_of_inj c c' o o'); [| exact Ho | | symmetry; exact E].
    + apply (in_combine_l _ _ _ _ Hin).
    + rewrite Forall_forall in Hos'. apply Hos'.
      apply (in_combine_r _ _ _ _ Hin).
Qed.

(** X16.  For a matrix that satisfies the counts invariant and holds the
    tags only, the plotter has one label per criterion, the name of the
    criterion followed by a space and the glyph of its objective; criteria
    of different names have different labels. *)
Theorem criteria_labels_name_each_criterion (self : DecisionMatrixPlotter num) :
  counts_invariant (_dm self) -> Forall is_tag (objectives (_dm self)) ->
  length (_criteria_labels self) = n_criteria (_dm self)
  /\ (forall j, j < n_criteria (_dm self) ->
        nth j (_criteria_labels self) ""
        = (nth j (cnames (_dm self)) "" ++ " "
           ++ match nth j (objectives (_dm self)) MAX with
              | MIN => "▼"
              | _ => "▲"
              end)%string)
  /\ (NoDup (cnames (_dm self)) -> NoDup (_criteria_labels self)).
Proof.
  intros [Hlen _] Htag. unfold _criteria_labels, objectives, cnames in *.
  unfold n_criteria in *. set (dm := _dm self) in *.
  split; [| split].
  - rewrite length_map, length_combine, Hlen. apply Nat.min_id.
  - intros j Hj.
    rewrite (nth_indep _ "" ((fun co => label_of (fst co) (snd co)) ("", MAX)))
      by (rewrite length_map, length_combine, Hlen, Nat.min_id; exact Hj).
    rewrite (map_nth (fun co : string * Objective =>
                        label_of (fst co) (snd co))).
    unfold label_of.
    rewrite combine_nth by (symmetry; exact Hlen). cbn [fst snd].
    rewrite Forall_forall in Htag.
    destruct (Htag (nth j (_objectives dm) MAX)) as [-> | ->];
      [apply nth_In; rewrite Hlen; exact Hj | reflexivity | reflexivity].
  - intros Hnd. apply (labels_NoDup _ _ Hnd Htag).
Qed.

End Labels.

(** ** The further properties at sample inputs *)

Lemma renderings_of_MIN_resolve :
  (exists glyph, @to_string Z _ MIN = Some glyph
                 /\ @construct_from_alias Z _ (PyStr glyph) = inr MIN)
  /\ @construct_from_alias Z _ (value MIN) = inr MIN
  /\ @construct_from_alias Z _ (PyStr (__str__ MIN)) = inr MIN.
Proof.
  apply (@construct_from_alias_inverts_renderings Z _ MIN).
  left. reflexivity.
Defined.

Lemma lookup_of_a_text_for_MIN :
  (@construct_from_alias Z _ (PyStr "Minimize") = inr MIN
   <-> py_in (lower_if_str (@PyStr Z "Minimize")) _MIN_ALIASES_value = true)
  /\ (@construct_from_alias Z _ (PyStr "Minimize") = inr MAX
      <-> py_in (lower_if_str (@PyStr Z "Minimize")) _MAX_ALIASES_value = true).
Proof.
  apply (@lookup_order_never_matters Z _ (PyStr "Minimize")).
  - intros x. discriminate.
  - intros o. discriminate.
Defined.

Lemma sample_has_codes :
  Forall is_tag (objectives sample_dm)
  /\ exists codes,
      objectives_values sample_dm = inr codes
      /\ length codes = n_criteria sample_dm
      /\ Forall (fun z => z = 1%Z \/ z = (-1)%Z) codes.
Proof.
  apply (mkdm_from_plain_aliases_has_codes sample_mtx
           [PyStr "Max"; PyFunc np_max] (Some [2; 1]%Z) None None sample_dm).
  - intros alias o [<- | [<- | []]]; discriminate.
  - reflexivity.
Defined.

Lemma sample_defaults :
  (anames sample_dm = ["A0"; "A1"; "A2"] /\ NoDup (anames sample_dm))
  /\ (cnames sample_dm = ["C0"; "C1"] /\ NoDup (cnames sample_dm)).
Proof.
  destruct (mkdm_defaults sample_mtx [PyStr "Max"; PyFunc np_max]
              (Some [2; 1]%Z) None None sample_dm eq_refl) as (Ha & Hc & _).
  split; [apply Ha | apply Hc]; reflexivity.
Defined.

Lemma sample_keeps_its_arguments :
  mtx sample_dm = sample_mtx /\ weights sample_dm = [2; 1]%Z.
Proof.
  destruct (mkdm_keeps_its_arguments sample_mtx [PyStr "Max"; PyFunc np_max]
              (Some [2; 1]%Z) None None sample_dm eq_refl)
    as (Hm & _ & _ & Hw).
  split; [exact Hm | apply Hw; reflexivity].
Defined.

Lemma mkdm_reports_a_misspelt_alias :
  mkdm sample_mtx [PyStr "max"; PyStr "Maximise"; PyStr "bogus"]
       (Some [2; 1]%Z) None None
  = inl (ValueError (Invalid_criteria_objective (PyStr "maximise"))).
Proof.
  apply (mkdm_reports_the_first_bad_alias sample_mtx
           [PyStr "max"] (PyStr "Maximise") [PyStr "bogus"]
           (Some [2; 1]%Z) None None 3 2).
  - reflexivity.
  - intros l H. discriminate.
  - intros l H. discriminate.
  - intros alias [<- | []]. exists MAX. reflexivity.
  - intros o. discriminate.
  - intros s E. injection E as <-. reflexivity.
Defined.

Lemma resolution_of_a_capitalised_text :
  isascii (lower "MiNiMiZe") = true
  /\ @construct_from_alias Z _ (PyStr (lower "MiNiMiZe"))
     = @construct_from_alias Z _ (PyStr "MiNiMiZe")
  /\ forall t, isascii t = true -> lower t = lower "MiNiMiZe" ->
       @construct_from_alias Z _ (PyStr t)
       = @construct_from_alias Z _ (PyStr "MiNiMiZe").
Proof.
  apply (@construct_from_alias_ignores_case Z _ "MiNiMiZe").
  reflexivity.
Defined.

Lemma eq_symmetric_on_samples :
  __eq__ sample_dm (Any_DecisionMatrix sample_dm_min)
  = __eq__ sample_dm_min (Any_DecisionMatrix sample_dm)
  /\ __ne__ sample_dm (Any_DecisionMatrix sample_dm_min)
     = __ne__ sample_dm_min (Any_DecisionMatrix sample_dm).
Proof.
  apply (eq_symmetric sample_dm sample_dm_min).
  intros x y. apply Z.eqb_sym.
Defined.

Lemma wsm_on_sample_needs_two_weights :
  wsm dot_from_left float_mtx [1; 1; 1]%float
  = inl (ValueError Shapes_not_aligned)
  /\ wsm dot_from_left float_mtx [1.5; 0.25]%float
     = inr ([2; 1; 3], {| shape := [3]; data := [40; 175; 4]%float |}).
Proof.
  split.
  - apply (proj1 (wsm_needs_one_weight_per_column dot_from_left
                    float_mtx [1; 1; 1]%float 3 2 eq_refl eq_refl)).
    simpl. lia.
  - rewrite (proj2 (wsm_needs_one_weight_per_column dot_from_left
                      float_mtx [1.5; 0.25]%float 3 2 eq_refl eq_refl)
               eq_refl).
    reflexivity.
Defined.

Lemma wpm_broadcasts_on_sample :
  wsm dot_from_left float_mtx [0.5]%float
  = inl (ValueError Shapes_not_aligned)
  /\ wpm log10_of_powers sum_from_left float_mtx [0.5]%float
     = inr ([2; 1; 3], {| shape := [3]; data := [1.5; 2; 0.5]%float |}).
Proof.
  destruct (wpm_broadcasts_a_single_weight log10_of_powers dot_from_left
              sum_from_left float_mtx 0.5%float 3 2) as [E1 E2].
  - reflexivity.
  - reflexivity.
  - lia.
  - split; [exact E1 |]. rewrite E2. reflexivity.
Defined.

Lemma criteria_labels_of_sample :
  length (_criteria_labels sample_plotter) = 2
  /\ (forall j, j < 2 ->
        nth j (_criteria_labels sample_plotter) ""
        = (nth j (cnames sample_dm) "" ++ " "
           ++ match nth j (objectives sample_dm) MAX with
              | MIN => "▼"
              | _ => "▲"
              end)%string)
  /\ (NoDup (cnames sample_dm) -> NoDup (_criteria_labels sample_plotter)).
Proof.
  apply (criteria_labels_name_each_criterion sample_plotter).
  - split; reflexivity.
  - simpl. repeat constructor; right; reflexivity.
Defined.
